(** * The GAN data pipeline of [gan.py] and [train.py]

    A shallow embedding of the data-preparation code of the two scripts:
    the distribution shaper ([get_normal_shaped_array],
    [get_normal_shaped_arrays]), the dataset assembler of [gan.py]
    ([get_discriminator_train_set]) and the assembler with train/test split
    of [train.py] ([discriminator_train_test_set]), followed by the
    properties of these functions.

    Numbers are IEEE-754 binary64 values (Rocq's primitive floats), which
    is what numpy's [float64] and Python's [float] are.  Python exceptions
    are an error result; numpy's global random generator is an explicit
    state threaded through the calls that draw from it. *)

From Stdlib Require Import ZArith List Bool Lia Floats Uint63 Sorted Permutation.
Import ListNotations.

#[local] Set Warnings "-inexact-float,-abstract-large-number".
#[local] Open Scope float_scope.
#[local] Open Scope nat_scope.

(* ================================================================== *)
(** * Python values and results                                        *)
(* ================================================================== *)

Module Py.

(** The exceptions the modelled code can raise. *)
Inductive exn : Type :=
| IndexError      (* sequence or tuple index out of range *)
| ValueError      (* zero-size reduction, int(nan), bad reshape *)
| OverflowError   (* int(inf) *)
| AxisError.      (* numpy: axis out of bounds *)

Inductive result (A : Type) : Type :=
| Ok (a : A)
| Raise (e : exn).
Arguments Ok {A} a.
Arguments Raise {A} e.

Definition bind {A B} (r : result A) (k : A -> result B) : result B :=
  match r with
  | Ok a => k a
  | Raise e => Raise e
  end.

(** [len(l)] as a Python int. *)
Definition len {A} (l : list A) : Z := Z.of_nat (length l).

(** [l[i]] for a list, tuple or the first axis of an array: a negative
    index counts from the end, an index out of range raises. *)
Definition getitem {A} (l : list A) (i : Z) : result A :=
  let j := if (i <? 0)%Z then (i + len l)%Z else i in
  if (j <? 0)%Z then Raise IndexError
  else match nth_error l (Z.to_nat j) with
       | Some a => Ok a
       | None => Raise IndexError
       end.

(** The bound of a slice brought into [0 .. len]: a negative bound counts
    from the end, and whatever falls outside is clipped. *)
Definition slice_bound (n : Z) (i : Z) : nat :=
  Z.to_nat (if (i <? 0)%Z then Z.max (i + n) 0 else Z.min i n).

(** [l[:stop]] *)
Definition slice_to {A} (l : list A) (stop : Z) : list A :=
  firstn (slice_bound (len l) stop) l.

(** [l[start:]] *)
Definition slice_from {A} (l : list A) (start : Z) : list A :=
  skipn (slice_bound (len l) start) l.

(** [float(n)] for an int below 2^63 (a list length is), correctly
    rounded. *)
Definition float_of_int (n : Z) : float :=
  PrimFloat.of_uint63 (Uint63.of_Z n).

(** [n * f] for an int [n] and a float [f]: the int is converted first. *)
Definition mul_int_float (n : Z) (f : float) : float :=
  PrimFloat.mul (float_of_int n) f.

(** [int(f)]: truncation toward zero; [nan] and the infinities raise. *)
Definition int_of_float (f : float) : result Z :=
  match Prim2SF f with
  | S754_zero _ => Ok 0%Z
  | S754_infinity _ => Raise OverflowError
  | S754_nan => Raise ValueError
  | S754_finite s m e =>
      let v := Z.shiftl (Z.pos m) e in
      Ok (if s then (- v)%Z else v)
  end.

(** The specification-level floats that are numbers: zeros and finite
    values ([n * f] is one of them unless it is nan or infinite). *)
Definition SF_finite (x : spec_float) : bool :=
  match x with
  | S754_zero _ | S754_finite _ _ _ => true
  | _ => false
  end.

End Py.

Export Py (result, Ok, Raise).

Declare Scope py_scope.
Delimit Scope py_scope with py.
Notation "x <- c ;; k" := (Py.bind c (fun x => k))
  (at level 61, c at next level, right associativity) : py_scope.

(* ================================================================== *)
(** * numpy arrays and the operations the scripts use                   *)
(* ================================================================== *)

Module Np.

(** An array is its shape and its elements in row-major order. *)
Record ndarray : Type := mk_ndarray { shape : list nat; data : list float }.

Definition size_of (sh : list nat) : nat := fold_right Nat.mul 1 sh.

(** Number of elements spanned by one index of the first axis. *)
Definition stride (a : ndarray) : nat := size_of (tl (shape a)).

(** [len(a)]: the extent of the first axis. *)
Definition len (a : ndarray) : Z := Z.of_nat (hd 0 (shape a)).

(** ** Sorting *)

Fixpoint insert (x : float) (l : list float) : list float :=
  match l with
  | [] => [x]
  | y :: l' => if PrimFloat.leb x y then x :: l else y :: insert x l'
  end.

(** Sort of a one-dimensional lane into non-decreasing order, by
    insertion.  The lanes sorted here hold draws of the normal distribution,
    which are never nan (numpy would move a nan to the end), so [leb] is a
    total order on them and every sorting algorithm returns the same
    values. *)
Definition sort_lane (l : list float) : list float :=
  fold_right insert [] l.

(** The order the sort establishes, and the values it is an order on. *)
Definition fle (x y : float) : Prop := PrimFloat.leb x y = true.
Definition not_nan (x : float) : Prop := PrimFloat.is_nan x = false.

(** The lane of the first axis that passes through offset [j] of the
    first row: elements [j], [j + st], [j + 2 st], ... *)
Definition lane (n0 st : nat) (d : list float) (j : nat) : list float :=
  map (fun i => nth (i * st + j) d 0%float) (seq 0 n0).

(** [np.sort(a, axis=0)]: every lane of the first axis is sorted on its
    own; the shape is unchanged.  A zero-dimensional array has no axis 0. *)
Definition sort_axis0 (a : ndarray) : result ndarray :=
  match shape a with
  | [] => Raise Py.AxisError
  | n0 :: rest =>
      let st := size_of rest in
      let lanes := map (fun j => sort_lane (lane n0 st (data a) j)) (seq 0 st) in
      Ok (mk_ndarray (shape a)
            (flat_map (fun i => map (fun l => nth i l 0%float) lanes) (seq 0 n0)))
  end.

(** ** Reductions: [np.amin], [np.amax] over all elements *)

(** numpy's [minimum] and [maximum] on two floats: a nan wins. *)
Definition fmin (x y : float) : float :=
  if PrimFloat.leb x y || PrimFloat.is_nan x then x else y.
Definition fmax (x y : float) : float :=
  if PrimFloat.leb y x || PrimFloat.is_nan x then x else y.

Definition amin (a : ndarray) : result float :=
  match data a with
  | [] => Raise Py.ValueError   (* zero-size array to reduction *)
  | x :: xs => Ok (fold_left fmin xs x)
  end.

Definition amax (a : ndarray) : result float :=
  match data a with
  | [] => Raise Py.ValueError
  | x :: xs => Ok (fold_left fmax xs x)
  end.

(** ** Broadcast arithmetic with a scalar.  A division by zero yields
    nan or an infinity (numpy warns, it does not raise). *)
Definition sub_scalar (a : ndarray) (c : float) : ndarray :=
  mk_ndarray (shape a) (map (fun x => PrimFloat.sub x c) (data a)).
Definition div_scalar (a : ndarray) (c : float) : ndarray :=
  mk_ndarray (shape a) (map (fun x => PrimFloat.div x c) (data a)).

(** ** [a[i] = c]: the whole [i]-th entry of the first axis (one element
    of a 1-D array, one row of a 2-D array) is filled with [c]. *)
Definition fill (d : list float) (k st : nat) (c : float) : list float :=
  firstn k d ++ repeat c st ++ skipn (k + st) d.

Definition setitem (a : ndarray) (i : Z) (c : float) : result ndarray :=
  match shape a with
  | [] => Raise Py.IndexError
  | n0 :: rest =>
      let j := if (i <? 0)%Z then (i + Z.of_nat n0)%Z else i in
      if ((j <? 0) || (Z.of_nat n0 <=? j))%Z then Raise Py.IndexError
      else
        let st := size_of rest in
        Ok (mk_ndarray (shape a) (fill (data a) (Z.to_nat j * st) st c))
  end.

(** ** [np.array(list_of_arrays)] for arrays of the common shape [sh],
    then [.reshape(sh')]. *)
Definition stack (sh : list nat) (l : list ndarray) : ndarray :=
  mk_ndarray (length l :: sh) (flat_map data l).

Definition reshape (a : ndarray) (sh' : list nat) : result ndarray :=
  if size_of sh' =? length (data a) then Ok (mk_ndarray sh' (data a))
  else Raise Py.ValueError.

(** Row [i] of a two-dimensional array, as the list of its elements. *)
Definition row (a : ndarray) (i : nat) : list float :=
  firstn (stride a) (skipn (i * stride a) (data a)).

(** ** [np.array(l)] of a Python list [l] of samples.  The elements must
    all have one shape, otherwise numpy raises ValueError (inhomogeneous
    shape); the empty list is fine.  The array is kept as the sequence of
    its entries along the first axis. *)
Class Shaped (A : Type) : Type := shape_of : A -> list nat.

Fixpoint shape_eqb (s t : list nat) : bool :=
  match s, t with
  | [], [] => true
  | m :: s', n :: t' => (m =? n) && shape_eqb s' t'
  | _, _ => false
  end.

Definition same_shape {A} `{Shaped A} (l : list A) : bool :=
  match l with
  | [] => true
  | a :: l' => forallb (fun b => shape_eqb (shape_of b) (shape_of a)) l'
  end.

Definition array {A} `{Shaped A} (l : list A) : result (list A) :=
  if same_shape l then Ok l else Raise Py.ValueError.

(** [a[i]] read: the [i]-th entry of the first axis, an array of one
    dimension less. *)
Definition getitem (a : ndarray) (i : Z) : result ndarray :=
  match shape a with
  | [] => Raise Py.IndexError
  | n0 :: rest =>
      let j := if (i <? 0)%Z then (i + Z.of_nat n0)%Z else i in
      if ((j <? 0) || (Z.of_nat n0 <=? j))%Z then Raise Py.IndexError
      else
        let st := size_of rest in
        Ok (mk_ndarray rest (firstn st (skipn (Z.to_nat j * st) (data a))))
  end.

(** The entries [a[0], a[1], ...] of the first axis, each as the list of
    its elements: what indexing a two-dimensional array row by row yields. *)
Definition rows (a : ndarray) : list (list float) :=
  map (row a) (seq 0 (hd 0 (shape a))).

(** ** The random generator.  [tape] is the sequence of standard-normal
    values the generator is going to produce, [pos] how many of them have
    been consumed. *)
Record rng : Type := mk_rng { tape : nat -> float; pos : nat }.

(** [np.random.normal(size=sh)] *)
Definition random_normal (sh : list nat) (g : rng) : ndarray * rng :=
  let n := size_of sh in
  (mk_ndarray sh (map (fun i => tape g (pos g + i)) (seq 0 n)),
   mk_rng (tape g) (pos g + n)).

End Np.

Export Np (ndarray, mk_ndarray, shape, data, rng, mk_rng, tape, pos).

(** The shapes of the values the scripts put into lists: a Python number
    has no axis, a row or a Python list of numbers has one, an array has
    its own shape. *)
#[global] Instance number_shaped : Np.Shaped nat := fun _ => [].
#[global] Instance row_shaped : Np.Shaped (list float) := fun r => [length r].
#[global] Instance int_list_shaped : Np.Shaped (list Z) := fun l => [length l].
#[global] Instance ndarray_shaped : Np.Shaped ndarray := shape.

(** Computations that draw random numbers and may raise. *)
Definition M (A : Type) : Type := rng -> result (A * rng).

Definition ret {A} (a : A) : M A := fun g => Ok (a, g).
Definition mbind {A B} (c : M A) (k : A -> M B) : M B :=
  fun g => match c g with
           | Ok (a, g') => k a g'
           | Raise e => Raise e
           end.
Definition lift {A} (r : result A) : M A :=
  fun g => match r with Ok a => Ok (a, g) | Raise e => Raise e end.
Definition draw (sh : list nat) : M ndarray :=
  fun g => Ok (Np.random_normal sh g).

Declare Scope m_scope.
Delimit Scope m_scope with m.
Notation "x <~ c ;; k" := (mbind c (fun x => k))
  (at level 61, c at next level, right associativity) : m_scope.

(* ================================================================== *)
(** * The distribution shaper (gan.py 24-74, train.py 25-75)          *)
(* ================================================================== *)

(** The body of [get_normal_shaped_array] after the draw: everything the
    function does to the noise array [normal]. *)
Definition get_normal_shaped_array_from (normal : ndarray) : result ndarray :=
  (normal <- Np.sort_axis0 normal ;;
   min <- Np.amin normal ;;
   let new_normal := Np.sub_scalar normal min in
   new_normal_max <- Np.amax new_normal ;;
   let normal_shaped := Np.div_scalar new_normal new_normal_max in
   normal_shaped <- Np.setitem normal_shaped 0 1e-4 ;;
   normal_shaped <- Np.setitem normal_shaped (Np.len normal_shaped - 1) 0.999 ;;
   Ok normal_shaped)%py.

Definition get_normal_shaped_array (shape : list nat) : M ndarray :=
  (normal <~ draw shape ;;
   lift (get_normal_shaped_array_from normal))%m.

(** The loop [for _ in range(n_arrays): normal_shaped.append(...)]. *)
Fixpoint shaped_loop (n_arrays : nat) (shape : list nat)
    (normal_shaped : list ndarray) : M (list ndarray) :=
  match n_arrays with
  | O => ret normal_shaped
  | S n => (a <~ get_normal_shaped_array shape ;;
            shaped_loop n shape (normal_shaped ++ [a]))%m
  end.

Definition get_normal_shaped_arrays (n_arrays : nat) (shape : list nat)
    : M ndarray :=
  (normal_shaped <~ shaped_loop n_arrays shape [] ;;
   lift (w <- Py.getitem shape 1 ;;
         Np.reshape (Np.stack shape normal_shaped) [n_arrays; w])%py)%m.

(** The noise array of line 138 of train.py and the value the script binds
    to [X] there before handing it to [gan.train_generator(X, y)]
    (line 145): the latent batch of the generator-training phase. *)
Definition latent_count : nat := 100000.
Definition latent_width : nat := 16.

Definition generator_training_input : M ndarray :=
  get_normal_shaped_arrays latent_count [1; latent_width].

(* ================================================================== *)
(** * The dataset assembler                                            *)
(* ================================================================== *)

Definition label : Type := list Z.
Definition fake_label : label := [1; 0]%Z.
Definition real_label : label := [0; 1]%Z.

#[global] Instance label_shaped : Np.Shaped label := int_list_shaped.

(** Samples that all have the shape [sh], as the rows of one array have. *)
Definition all_shaped {A} `{Np.Shaped A} (sh : list nat) (l : list A) : Prop :=
  Forall (fun a => Np.shape_of a = sh) l.

Section Assembler.

(** One sample: a row of [normal_shaped_data] or of [mnist_data], with the
    shape numpy sees in it. *)
Context {sample : Type} `{Np.Shaped sample}.

(** The loop shared by the two assemblers (gan.py 92-96, train.py 97-101),
    run over the indices [idx] still to visit. *)
Fixpoint assemble_loop (normal_shaped_data mnist_data : list sample)
    (idx : list nat) (X : list sample) (y : list label)
    : result (list sample * list label) :=
  match idx with
  | [] => Ok (X, y)
  | i :: idx' =>
      (s <- Py.getitem normal_shaped_data (Z.of_nat i) ;;
       let X := X ++ [s] in
       let y := y ++ [fake_label] in
       r <- Py.getitem mnist_data (Z.of_nat i) ;;
       let X := X ++ [r] in
       let y := y ++ [real_label] in
       assemble_loop normal_shaped_data mnist_data idx' X y)%py
  end.

(** gan.py, lines 76-98. *)
Definition get_discriminator_train_set (normal_shaped_data mnist_data : list sample)
    : result (list sample * list label) :=
  (Xy <- assemble_loop normal_shaped_data mnist_data
           (seq 0 (length normal_shaped_data)) [] [] ;;
   let '(X, y) := Xy in
   X <- Np.array X ;;
   y <- Np.array y ;;
   Ok (X, y))%py.

(** train.py, lines 77-111. *)
Definition discriminator_train_test_set
    (normal_shaped_data mnist_data : list sample) (train_test_split : float)
    : result (list sample * list label * list sample * list label) :=
  (Xy <- assemble_loop normal_shaped_data mnist_data
           (seq 0 (length normal_shaped_data)) [] [] ;;
   let '(X, y) := Xy in
   split <- Py.int_of_float (Py.mul_int_float (Py.len X) train_test_split) ;;
   let X_train := Py.slice_to X (- split) in
   let y_train := Py.slice_to y (- split) in
   let X_test := Py.slice_from X (- split) in
   let y_test := Py.slice_from y (- split) in
   X_train <- Np.array X_train ;;
   y_train <- Np.array y_train ;;
   X_test <- Np.array X_test ;;
   y_test <- Np.array y_test ;;
   Ok (X_train, y_train, X_test, y_test))%py.

End Assembler.

(* ================================================================== *)
(** * The scripts' own calls                                           *)
(* ================================================================== *)

(** The image width the scripts pass to the shaper. *)
Definition image_width : nat := 784.

(** gan.py: [X = get_normal_shaped_arrays(n, (1, 784))] followed by
    [get_discriminator_train_set(X, images)], with [images] the rows of the
    MNIST array. *)
Definition shaped_against (n : nat) (images : list (list float))
    : M (list (list float) * list label) :=
  (X <~ get_normal_shaped_arrays n [1; image_width] ;;
   lift (get_discriminator_train_set (Np.rows X) images))%m.

(** gan.py, lines 100-102: the discriminator's training set. *)
Definition gan_train_set (X_train : list (list float)) :=
  shaped_against 60000 X_train.

(** gan.py, lines 107-108: the discriminator's evaluation set. *)
Definition gan_test_set (X_test : list (list float)) :=
  shaped_against 10000 X_test.

(** train.py, lines 124-126; [split] is
    [params.DISCRIMINATOR_TRAIN_TEST_SPLIT]. *)
Definition train_discriminator_sets (X_train : list (list float)) (split : float)
    : M (list (list float) * list label * list (list float) * list label) :=
  (X <~ get_normal_shaped_arrays 60000 [1; image_width] ;;
   lift (discriminator_train_test_set (Np.rows X) X_train split))%m.

(** train.py, lines 139-141: [for _ in range(100000): y.append([0, 1])]. *)
Fixpoint target_loop (n : nat) (y : list label) : list label :=
  match n with
  | O => y
  | S n' => target_loop n' (y ++ [real_label])
  end.

Definition generator_training_targets : list label :=
  target_loop latent_count [].

(** train.py, lines 149-151: [X[i].reshape(1, 16)], the argument of
    [generator.predict]. *)
Definition prediction_input (X : ndarray) (i : Z) : result ndarray :=
  (v <- Np.getitem X i ;; Np.reshape v [1; latent_width])%py.

(** The three arrays the script predicts from, out of the latent batch of
    line 138. *)
Definition prediction_inputs : M (ndarray * ndarray * ndarray) :=
  (X <~ generator_training_input ;;
   lift (p1 <- prediction_input X 0 ;;
         p2 <- prediction_input X 15 ;;
         p3 <- prediction_input X 72 ;;
         Ok (p1, p2, p3))%py)%m.

(** What the specification calls the interleaved dataset of two sample
    sequences: shaped sample, real sample, shaped sample, ... *)
Fixpoint interleave {A} (shaped real : list A) : list A :=
  match shaped, real with
  | s :: shaped', r :: real' => s :: r :: interleave shaped' real'
  | _, _ => []
  end.

Fixpoint alternating_labels (n : nat) : list label :=
  match n with
  | O => []
  | S n' => fake_label :: real_label :: alternating_labels n'
  end.

(** The [i]-th array that [np.random.normal(size=sh)] returns when it is
    called again and again from generator state [g]. *)
Definition nth_draw (g : rng) (sh : list nat) (i : nat) : ndarray :=
  fst (Np.random_normal sh (mk_rng (tape g) (i * Np.size_of sh + pos g))).

(** A result that is an exception. *)
Definition signals_error {A} (r : result A) : Prop := exists e, r = Raise e.

(** ** Sample inputs used by the examples below *)

(** A generator whose draws come out in decreasing order:
    0.5, -0.5, -1.5, ... *)
Definition falling_tape (i : nat) : float :=
  PrimFloat.sub 0.5%float (Py.float_of_int (Z.of_nat i)).
Definition g_falling : rng := mk_rng falling_tape 0.

(** A generator that keeps drawing the same value. *)
Definition g_flat : rng := mk_rng (fun _ => 0.25%float) 0.

(** [n] black images of 784 pixels, standing for the rows of an MNIST
    array. *)
Definition black_images (n : nat) : list (list float) :=
  repeat (repeat 0%float 784) n.

(** The first noise array of shape (1, 3) drawn from [g_falling]. *)
Definition falling_draw : ndarray := nth_draw g_falling [1; 3] 0.

(* ================================================================== *)
(** * Lists: auxiliary facts                                           *)
(* ================================================================== *)

Lemma map_nth_seq_id {A} (d : list A) (x : A) :
  map (fun j => nth j d x) (seq 0 (length d)) = d.
Proof.
  induction d as [|a d IH]; [reflexivity|].
  cbn [length seq map nth]. f_equal.
  rewrite <- seq_shift, map_map. exact IH.
Qed.

Lemma map_nth_seq_len {A} (d : list A) (x : A) (n : nat) :
  length d = n -> map (fun j => nth j d x) (seq 0 n) = d.
Proof. intros <-. apply map_nth_seq_id. Qed.

Lemma nth_map_seq {A} (f : nat -> A) (n j : nat) (d : A) :
  j < n -> nth j (map f (seq 0 n)) d = f j.
Proof.
  intros Hj. rewrite nth_indep with (d' := f 0)
    by (now rewrite length_map, length_seq).
  now rewrite map_nth, seq_nth.
Qed.

Lemma nth_map_default {A B} (g : A -> B) (l : list A) (j : nat) (a0 : A) (d : B) :
  j < length l -> nth j (map g l) d = g (nth j l a0).
Proof.
  intros Hj. rewrite nth_indep with (d' := g a0) by (now rewrite length_map).
  apply map_nth.
Qed.

Lemma flat_map_const_length {A B} (f : A -> list B) (k : nat) (l : list A) :
  (forall a, In a l -> length (f a) = k) ->
  length (flat_map f l) = length l * k.
Proof.
  induction l as [|a l IH]; intros Hk; [reflexivity|].
  cbn [flat_map length]. rewrite length_app, Hk by (left; reflexivity).
  rewrite IH by (intros b Hb; apply Hk; right; exact Hb). lia.
Qed.

Lemma firstn_skipn_flat_map {A B} (f : A -> list B) (k : nat)
    (l : list A) (i : nat) (a0 : A) :
  (forall a, In a l -> length (f a) = k) ->
  i < length l ->
  firstn k (skipn (i * k) (flat_map f l)) = f (nth i l a0).
Proof.
  revert i. induction l as [|a l IH]; intros i Hk Hi; [cbn in Hi; lia|].
  assert (Ha : length (f a) = k) by (apply Hk; left; reflexivity).
  cbn [flat_map]. destruct i as [|i].
  - cbn [Nat.mul skipn nth]. rewrite firstn_app, <- Ha, firstn_all, Nat.sub_diag.
    cbn [firstn]. apply app_nil_r.
  - cbn [nth]. replace (S i * k) with (length (f a) + i * k) by (rewrite Ha; lia).
    rewrite skipn_app, skipn_all2 by lia.
    replace (length (f a) + i * k - length (f a)) with (i * k) by lia.
    cbn [app]. apply IH; [|cbn in Hi; lia].
    intros b Hb. apply Hk. right. exact Hb.
Qed.

(* ================================================================== *)
(** * numpy operations: auxiliary facts                                *)
(* ================================================================== *)

Lemma insert_length x l : length (Np.insert x l) = S (length l).
Proof.
  induction l as [|y l IH]; [reflexivity|].
  cbn [Np.insert]. destruct (PrimFloat.leb x y); cbn [length]; [reflexivity|].
  now rewrite IH.
Qed.

Lemma sort_lane_length l : length (Np.sort_lane l) = length l.
Proof.
  induction l as [|x l IH]; [reflexivity|].
  unfold Np.sort_lane in *. cbn [fold_right length].
  rewrite insert_length. f_equal. exact IH.
Qed.

Lemma insert_Forall (P : float -> Prop) x l :
  P x -> Forall P l -> Forall P (Np.insert x l).
Proof.
  intros Hx Hl. induction Hl as [|y l Hy Hl IH]; cbn [Np.insert].
  - constructor; [exact Hx|constructor].
  - destruct (PrimFloat.leb x y); repeat constructor; assumption.
Qed.

Lemma sort_lane_Forall (P : float -> Prop) l :
  Forall P l -> Forall P (Np.sort_lane l).
Proof.
  induction 1 as [|x l Hx Hl IH]; [constructor|].
  apply insert_Forall; assumption.
Qed.

Lemma lane_length n0 st d j : length (Np.lane n0 st d j) = n0.
Proof. unfold Np.lane. now rewrite length_map, length_seq. Qed.

Lemma lane_Forall (P : float -> Prop) n0 st d j :
  length d = n0 * st -> j < st -> Forall P d -> Forall P (Np.lane n0 st d j).
Proof.
  intros Hd Hj HP. unfold Np.lane. apply Forall_map, Forall_forall.
  intros i Hi. apply in_seq in Hi.
  apply Forall_nth; [exact HP|]. rewrite Hd. nia.
Qed.

(** ** The lane sort is a sort *)

Lemma SFcompare_Gt_Lt X Y :
  SFcompare X Y = Some Gt -> SFcompare Y X = Some Lt.
Proof.
  destruct X as [[|]|[|]| |[|] m1 e1], Y as [[|]|[|]| |[|] m2 e2];
    cbn; try discriminate; try reflexivity;
    rewrite (Z.compare_antisym e1 e2);
    destruct (e1 ?= e2)%Z; cbn; try discriminate; try reflexivity;
    pose proof (Pos.compare_cont_antisym m1 m2 Eq) as A; cbn [CompOpp] in A;
    rewrite <- A;
    destruct (Pos.compare_cont Eq m1 m2); cbn; try discriminate; reflexivity.
Qed.

(** Away from nan, [<=] on floats is total. *)
Lemma leb_total x y :
  Np.not_nan x -> Np.not_nan y ->
  PrimFloat.leb x y = false -> PrimFloat.leb y x = true.
Proof.
  unfold Np.not_nan, PrimFloat.is_nan.
  rewrite !FloatAxioms.leb_spec, !FloatAxioms.eqb_spec.
  unfold SFleb, SFeqb. intros Hx Hy H.
  destruct (SFcompare (Prim2SF x) (Prim2SF y)) as [[| |]|] eqn:E;
    try discriminate H.
  - now rewrite (SFcompare_Gt_Lt _ _ E).
  - destruct (Prim2SF x) as [| | |]; destruct (Prim2SF y) as [| | |];
      cbn in *; try discriminate.
    all: try (destruct s; discriminate).
Qed.

Lemma insert_HdRel x y l :
  Np.fle y x -> HdRel Np.fle y l -> HdRel Np.fle y (Np.insert x l).
Proof.
  intros Hyx Hl. destruct l as [|z l]; cbn [Np.insert]; [now constructor|].
  destruct (PrimFloat.leb x z); constructor; [exact Hyx|].
  now inversion Hl.
Qed.

Lemma insert_sorted x l :
  Np.not_nan x -> Forall Np.not_nan l ->
  Sorted Np.fle l -> Sorted Np.fle (Np.insert x l).
Proof.
  intros Hx Hn Hs. induction l as [|y l IH]; cbn [Np.insert].
  - repeat constructor.
  - inversion Hn as [|? ? Hy Hn']; subst. inversion Hs as [|? ? Hs' Hhd]; subst.
    destruct (PrimFloat.leb x y) eqn:E.
    + constructor; [exact Hs|]. constructor. exact E.
    + constructor; [apply IH; assumption|].
      apply insert_HdRel; [apply leb_total; assumption | exact Hhd].
Qed.

Lemma insert_perm x l : Permutation (x :: l) (Np.insert x l).
Proof.
  induction l as [|y l IH]; cbn [Np.insert]; [reflexivity|].
  destruct (PrimFloat.leb x y); [reflexivity|].
  rewrite perm_swap. now apply perm_skip.
Qed.

(** On a lane without nan the sort returns the same values in
    non-decreasing order. *)
Lemma sort_lane_sorted l :
  Forall Np.not_nan l ->
  Sorted Np.fle (Np.sort_lane l) /\ Permutation l (Np.sort_lane l).
Proof.
  induction 1 as [|x l Hx Hl [IHs IHp]]; [split; constructor|].
  unfold Np.sort_lane in *. cbn [fold_right]. split.
  - apply insert_sorted; [exact Hx | | exact IHs].
    apply sort_lane_Forall, Hl.
  - rewrite <- insert_perm. now apply perm_skip.
Qed.

Lemma nth_flat_map_block {A} (f : A -> list float) (k : nat) (l : list A)
    (i j : nat) (a0 : A) (x : float) :
  (forall a, In a l -> length (f a) = k) -> i < length l -> j < k ->
  nth (i * k + j) (flat_map f l) x = nth j (f (nth i l a0)) x.
Proof.
  intros Hk Hi Hj.
  rewrite <- (firstn_skipn_flat_map f k l i a0 Hk Hi).
  rewrite nth_firstn. destruct (Nat.ltb_spec j k); [|lia].
  rewrite nth_skipn. reflexivity.
Qed.

(** What [np.sort(a, axis=0)] is: every lane of the first axis of the
    result is the sorted lane of the argument. *)
Lemma sort_axis0_lanes a n0 rest d (j : nat) :
  shape a = n0 :: rest ->
  Np.sort_axis0 a = Ok (mk_ndarray (n0 :: rest) d) ->
  j < Np.size_of rest ->
  Np.lane n0 (Np.size_of rest) d j
  = Np.sort_lane (Np.lane n0 (Np.size_of rest) (data a) j).
Proof.
  intros Hs Hsort Hj. unfold Np.sort_axis0 in Hsort. rewrite Hs in Hsort.
  injection Hsort as <-.
  set (st := Np.size_of rest) in *.
  set (sorted := fun j => Np.sort_lane (Np.lane n0 st (data a) j)).
  transitivity (map (fun i => nth i (sorted j) 0%float) (seq 0 n0)).
  - unfold Np.lane at 1. apply map_ext_in. intros i Hi. apply in_seq in Hi.
    rewrite nth_flat_map_block with (a0 := 0);
      [ | intros b _; now rewrite !length_map, length_seq
        | rewrite length_seq; lia | exact Hj ].
    rewrite seq_nth by lia. cbn [Nat.add].
    rewrite (nth_map_default _ _ j [])
      by (now rewrite length_map, length_seq).
    now rewrite (nth_map_seq sorted).
  - apply map_nth_seq_len. unfold sorted.
    now rewrite sort_lane_length, lane_length.
Qed.

(** Sorting along the first axis keeps the shape and the number of
    elements, and every element of the result is an element of the
    argument. *)
Lemma sort_axis0_ok a n0 rest :
  shape a = n0 :: rest ->
  exists d, Np.sort_axis0 a = Ok (mk_ndarray (n0 :: rest) d)
    /\ length d = n0 * Np.size_of rest
    /\ forall P : float -> Prop,
         length (data a) = n0 * Np.size_of rest ->
         Forall P (data a) -> Forall P d.
Proof.
  intros Hs. unfold Np.sort_axis0. rewrite Hs. eexists. split; [reflexivity|].
  cbn [data]. split.
  - rewrite flat_map_const_length with (k := Np.size_of rest).
    + now rewrite length_seq.
    + intros i _. now rewrite !length_map, length_seq.
  - intros P Hd HP. apply Forall_flat_map, Forall_forall. intros i Hi.
    apply in_seq in Hi. apply Forall_map, Forall_map, Forall_forall.
    intros j Hj. apply in_seq in Hj.
    apply Forall_nth.
    + apply sort_lane_Forall, lane_Forall; [exact Hd|lia|exact HP].
    + rewrite sort_lane_length, lane_length. lia.
Qed.

(** X5: on an array whose first axis has extent 1 the sort along that axis
    changes nothing. *)
Lemma sort_axis0_extent_one a rest :
  shape a = 1 :: rest -> length (data a) = Np.size_of rest ->
  Np.sort_axis0 a = Ok a.
Proof.
  intros Hs Hd. unfold Np.sort_axis0. rewrite Hs. destruct a as [sh d].
  cbn [shape data] in *. subst sh. do 2 f_equal.
  cbn [seq flat_map]. rewrite app_nil_r, map_map.
  unfold Np.lane. cbn [seq map Np.sort_lane fold_right Np.insert nth Nat.mul Nat.add].
  rewrite <- Hd. apply map_nth_seq_id.
Qed.

Lemma fill_all (d : list float) (st : nat) (c : float) :
  length d = st -> Np.fill d 0 st c = repeat c st.
Proof.
  intros Hd. unfold Np.fill. cbn [firstn app Nat.add].
  rewrite skipn_all2 by lia. apply app_nil_r.
Qed.

Lemma fill_nth (d : list float) (k st i : nat) (c x : float) :
  k + st <= length d ->
  nth i (Np.fill d k st c) x
  = if (k <=? i) && (i <? k + st) then c else nth i d x.
Proof.
  intros Hk. unfold Np.fill.
  assert (Hf : length (firstn k d) = k) by (rewrite length_firstn; lia).
  destruct (Nat.leb_spec k i) as [Hki|Hki]; cbn [andb].
  - rewrite app_nth2 by lia. rewrite Hf.
    destruct (Nat.ltb_spec i (k + st)) as [His|His].
    + rewrite app_nth1 by (rewrite repeat_length; lia).
      apply (repeat_spec st c), nth_In. rewrite repeat_length. lia.
    + rewrite app_nth2 by (rewrite repeat_length; lia).
      rewrite repeat_length, nth_skipn. f_equal. lia.
  - rewrite app_nth1 by lia. rewrite nth_firstn.
    destruct (Nat.ltb_spec i k); [reflexivity|lia].
Qed.

Lemma fill_length (d : list float) (k st : nat) (c : float) :
  k + st <= length d -> length (Np.fill d k st c) = length d.
Proof.
  intros Hk. unfold Np.fill.
  rewrite !length_app, length_firstn, repeat_length, length_skipn. lia.
Qed.

Lemma last_block n0 s : 0 < n0 * s -> (n0 - 1) * s + s = n0 * s /\ s <= n0 * s.
Proof. intros H. destruct n0 as [|n0]; [lia|]. cbn [Nat.sub]. nia. Qed.

(** Overwriting the first and the last block of a buffer of [n0] blocks
    keeps its length. *)
Lemma fill_ends_length (d : list float) n0 s c1 c2 :
  length d = n0 * s -> 0 < n0 * s ->
  length (Np.fill (Np.fill d 0 s c1) ((n0 - 1) * s) s c2) = n0 * s.
Proof.
  intros Hd Hpos. destruct (last_block n0 s Hpos) as [H1 H2].
  rewrite fill_length; rewrite fill_length; lia.
Qed.

(** [a[i] = c] for an index within the first axis. *)
Lemma setitem_ok a n0 rest (i : nat) c :
  shape a = n0 :: rest -> i < n0 ->
  Np.setitem a (Z.of_nat i) c
  = Ok (mk_ndarray (n0 :: rest)
          (Np.fill (data a) (i * Np.size_of rest) (Np.size_of rest) c)).
Proof.
  intros Hs Hi. unfold Np.setitem. rewrite Hs.
  assert (E1 : (Z.of_nat i <? 0)%Z = false) by (apply Z.ltb_ge; lia).
  assert (E2 : (Z.of_nat n0 <=? Z.of_nat i)%Z = false) by (apply Z.leb_gt; lia).
  cbv zeta. rewrite E1. cbv iota. rewrite E1, E2. cbn [orb].
  now rewrite Nat2Z.id.
Qed.

(** ** The rounding of binary64, as far as the product [len(X) * 0.0] needs
    it: the conversion of an int below 2^63 never overflows. *)

Section FloatFacts.
#[local] Open Scope Z_scope.

Lemma digits2_pos_size p : digits2_pos p = Pos.size p.
Proof. induction p; cbn; congruence. Qed.

Lemma Zdigits2_bound m k : 0 <= k -> 0 <= m < 2 ^ k -> Zdigits2 m <= k.
Proof.
intros Hk [Hm0 Hm]. destruct m as [|p|p]; [cbn; lia | | lia].
cbn [Zdigits2]. rewrite digits2_pos_size.
destruct (Z.le_gt_cases (Z.pos (Pos.size p)) k) as [H|H]; [exact H|exfalso].
pose proof (Pos.size_le p) as Hs.
apply Pos2Z.pos_le_pos in Hs. rewrite Pos2Z.inj_pow in Hs.
assert (H2 : 2 ^ (Z.succ k) <= 2 ^ Z.pos (Pos.size p)) by (apply Z.pow_le_mono_r; lia).
rewrite Z.pow_succ_r in H2 by lia. lia.
Qed.

Lemma shr_1_range mrs :
0 <= shr_m mrs -> 0 <= shr_m (shr_1 mrs) <= shr_m mrs.
Proof.
destruct mrs as [m r s]. cbn [shr_m]. intros Hm.
destruct m as [|[p|p|]|p]; cbn; lia.
Qed.

Lemma iter_pos_invariant {A} (f : A -> A) (Q : A -> Prop) :
(forall x, Q x -> Q (f x)) -> forall n x, Q x -> Q (iter_pos f n x).
Proof.
intros Hf. induction n as [n IH|n IH|]; intros x Hx; cbn [iter_pos]; auto.
Qed.

Lemma shr_range mrs e n B :
0 <= shr_m mrs <= B ->
0 <= shr_m (fst (shr mrs e n)) <= B /\ snd (shr mrs e n) <= Z.max e (e + n).
Proof.
intros Hm. destruct n as [|p|p]; cbn [shr fst snd]; try lia.
split; [|lia].
apply (iter_pos_invariant shr_1 (fun x => 0 <= shr_m x <= B)); [|exact Hm].
intros x Hx. pose proof (shr_1_range x). lia.
Qed.

Lemma shr_fexp_range m e l B :
0 <= m <= B ->
0 <= shr_m (fst (shr_fexp prec emax m e l)) <= B
/\ snd (shr_fexp prec emax m e l) <= Z.max e (fexp prec emax (Zdigits2 m + e)).
Proof.
intros Hm. unfold shr_fexp.
assert (Hr : shr_m (shr_record_of_loc m l) = m) by (destruct l as [|[]]; reflexivity).
rewrite <- Hr in Hm.
destruct (shr_range (shr_record_of_loc m l) e
            (fexp prec emax (Zdigits2 m + e) - e) B Hm) as [H1 H2].
split; [exact H1|]. lia.
Qed.

Lemma round_nearest_even_range m l :
m <= round_nearest_even m l <= m + 1.
Proof. destruct l as [|[]]; cbn; try lia. destruct (Z.even m); lia. Qed.

Lemma binary_round_aux_finite sx mx ex lx :
0 <= mx < 2 ^ 115 -> ex <= 0 -> Zdigits2 mx + ex <= 63 ->
Py.SF_finite (binary_round_aux prec emax sx mx ex lx) = true.
Proof.
intros Hm He Hd. unfold binary_round_aux.
destruct (shr_fexp_range mx ex lx (2 ^ 115 - 1)) as [H1 H2]; [lia|].
destruct (shr_fexp prec emax mx ex lx) as [mrs' e']. cbn [fst snd] in H1, H2.
pose proof (round_nearest_even_range (shr_m mrs') (loc_of_shr_record mrs')) as Hr.
set (m2 := round_nearest_even (shr_m mrs') (loc_of_shr_record mrs')) in *.
destruct (shr_fexp_range m2 e' loc_Exact (2 ^ 115)) as [H3 H4]; [lia|].
destruct (shr_fexp prec emax m2 e' loc_Exact) as [mrs'' e'']. cbn [fst snd] in H3, H4.
assert (Hd2 : Zdigits2 m2 <= 116) by (apply Zdigits2_bound; lia).
unfold fexp, emin, prec, emax in *.
destruct (shr_m mrs'') as [|p|p]; [reflexivity | | lia].
destruct (Z.leb_spec e'' (1024 - 53)); [reflexivity | lia].
Qed.

Lemma iter_xO_pow p d : Z.pos (Pos.iter xO p d) = Z.pos p * 2 ^ Z.pos d.
Proof.
induction d as [|d IH] using Pos.peano_ind.
- cbn. lia.
- rewrite Pos.iter_succ, Pos2Z.inj_xO, IH, Pos2Z.inj_succ, Z.pow_succ_r; lia.
Qed.

Lemma binary_normalize_int_finite m :
0 <= m < 2 ^ 63 -> Py.SF_finite (binary_normalize prec emax m 0 false) = true.
Proof.
intros Hm. destruct m as [|p|p]; [reflexivity | | lia].
cbn [binary_normalize]. unfold binary_round, shl_align.
assert (Hdig : Zdigits2 (Z.pos p) <= 63) by (apply Zdigits2_bound; lia).
cbn [Zdigits2] in Hdig.
set (D := Z.pos (digits2_pos p)) in *.
assert (Hf : -52 <= fexp prec emax (D + 0) <= 10)
  by (unfold fexp, emin, prec, emax, D; lia).
destruct (fexp prec emax (D + 0) - 0) as [|d|d] eqn:Hsub;
  apply binary_round_aux_finite; try (cbn [Zdigits2]; fold D; lia).
- assert (Hp : 2 ^ Z.pos d <= 2 ^ 52) by (apply Z.pow_le_mono_r; lia).
  rewrite iter_xO_pow. nia.
- apply Z.le_trans with (63 + Z.pos d - Z.pos d); [|lia].
  apply Z.add_le_mono; [|lia].
  apply Zdigits2_bound; [lia|]. rewrite iter_xO_pow, Z.pow_add_r by lia. nia.
Qed.

(** [float(n) * 0.0] is a zero, and [int] of it is 0. *)
Lemma float_of_int_times_zero n :
exists s, Prim2SF (Py.mul_int_float n 0%float) = S754_zero s.
Proof.
unfold Py.mul_int_float, Py.float_of_int.
rewrite FloatAxioms.mul_spec, FloatAxioms.of_uint63_spec.
pose proof (binary_normalize_int_finite (Uint63.to_Z (Uint63.of_Z n))
              (Uint63.to_Z_bounded _)) as H.
change (Prim2SF 0%float) with (S754_zero false).
destruct (binary_normalize prec emax _ 0 false) as [s| | |s m e];
  try discriminate H; eexists; reflexivity.
Qed.

Lemma int_of_zero_product n : Py.int_of_float (Py.mul_int_float n 0%float) = Ok 0.
Proof.
unfold Py.int_of_float. destruct (float_of_int_times_zero n) as [s ->].
reflexivity.
Qed.

End FloatFacts.

(** ** Floating-point facts *)

(** Whatever [x] is, [x - x] divided by [x - x] is nan: the difference is
    zero when [x] is finite and nan otherwise. *)
Lemma self_range_quotient_nan (x : float) :
  PrimFloat.is_nan (PrimFloat.div (PrimFloat.sub x x) (PrimFloat.sub x x)) = true.
Proof.
  unfold PrimFloat.is_nan. rewrite FloatAxioms.eqb_spec, FloatAxioms.div_spec, FloatAxioms.sub_spec.
  destruct (Prim2SF x) as [[|]|[|]| |s m e]; try reflexivity.
  unfold SF64sub, SFsub. rewrite Z.sub_diag. reflexivity.
Qed.

Lemma fmin_self x : Np.fmin x x = x.
Proof. unfold Np.fmin. destruct (PrimFloat.leb x x || PrimFloat.is_nan x); reflexivity. Qed.

Lemma fmax_self x : Np.fmax x x = x.
Proof. unfold Np.fmax. destruct (PrimFloat.leb x x || PrimFloat.is_nan x); reflexivity. Qed.

Lemma fold_fmin_repeat x n : fold_left Np.fmin (repeat x n) x = x.
Proof. induction n; cbn [repeat fold_left]; [reflexivity|]. now rewrite fmin_self. Qed.

Lemma fold_fmax_repeat x n : fold_left Np.fmax (repeat x n) x = x.
Proof. induction n; cbn [repeat fold_left]; [reflexivity|]. now rewrite fmax_self. Qed.

(* ================================================================== *)
(** * The distribution shaper                                          *)
(* ================================================================== *)

(** On every non-empty array the shaper returns: the sorted elements [d]
    are translated by their minimum [m], divided by the maximum [mx] of the
    translated values, and the first and the last entry of the first axis
    are overwritten. *)
Lemma shaper_from_ok a n0 rest :
  shape a = n0 :: rest ->
  length (data a) = n0 * Np.size_of rest ->
  0 < n0 * Np.size_of rest ->
  exists d m mx,
    Np.sort_axis0 a = Ok (mk_ndarray (n0 :: rest) d)
    /\ length d = n0 * Np.size_of rest
    /\ Np.amin (mk_ndarray (n0 :: rest) d) = Ok m
    /\ Np.amax (Np.sub_scalar (mk_ndarray (n0 :: rest) d) m) = Ok mx
    /\ get_normal_shaped_array_from a
       = Ok (mk_ndarray (n0 :: rest)
               (Np.fill
                  (Np.fill (map (fun x => PrimFloat.div (PrimFloat.sub x m) mx) d)
                     0 (Np.size_of rest) 1e-4)
                  ((n0 - 1) * Np.size_of rest) (Np.size_of rest) 0.999)).
Proof.
  intros Hs Hd Hpos.
  destruct (sort_axis0_ok a n0 rest Hs) as (d & Hsort & Hlen & _).
  destruct d as [|x xs]; [cbn in Hlen; lia|].
  exists (x :: xs), (fold_left Np.fmin xs x),
    (fold_left Np.fmax
       (map (fun v => PrimFloat.sub v (fold_left Np.fmin xs x)) xs)
       (PrimFloat.sub x (fold_left Np.fmin xs x))).
  repeat split; try assumption; try reflexivity.
  unfold get_normal_shaped_array_from. rewrite Hsort.
  cbn [Py.bind Np.amin Np.amax Np.sub_scalar Np.div_scalar data shape map].
  change 0%Z with (Z.of_nat 0).
  rewrite setitem_ok with (n0 := n0) (rest := rest) by (try reflexivity; nia).
  cbn [Py.bind]. unfold Np.len. cbn [shape hd].
  replace (Z.of_nat n0 - 1)%Z with (Z.of_nat (n0 - 1)) by nia.
  rewrite setitem_ok with (n0 := n0) (rest := rest) by (try reflexivity; nia).
  cbn [Py.bind Np.div_scalar Np.sub_scalar data map]. rewrite map_map.
  reflexivity.
Qed.

(** A noise array with a first axis of extent 1 comes back filled with
    0.999: both endpoint assignments address its only row. *)
Lemma shaper_from_extent_one a L :
  shape a = [1; L] -> length (data a) = L -> 1 <= L ->
  get_normal_shaped_array_from a = Ok (mk_ndarray [1; L] (repeat 0.999%float L)).
Proof.
  intros Hs Hd HL.
  assert (Hst : Np.size_of [L] = L) by (cbn; lia).
  destruct (shaper_from_ok a 1 [L] Hs) as (d & m & mx & _ & Hlen & _ & _ & Hr);
    [lia | lia |].
  rewrite Hr, Hst in *. do 2 f_equal. cbn [Nat.sub Nat.mul].
  rewrite (fill_all _ L 1e-4) by (rewrite length_map; lia).
  apply fill_all, repeat_length.
Qed.

(** X2: a noise array whose first axis has extent at least 2 comes back
    with its first entry along that axis at 1e-4 and its last entry at
    0.999: here the two assignments address different entries. *)
Lemma shaper_first_axis_endpoints a n0 rest :
  shape a = n0 :: rest ->
  length (data a) = n0 * Np.size_of rest ->
  2 <= n0 -> 0 < Np.size_of rest ->
  exists r,
    get_normal_shaped_array_from a = Ok r
    /\ shape r = n0 :: rest
    /\ length (data r) = n0 * Np.size_of rest
    /\ (forall k, k < Np.size_of rest -> nth k (data r) 0%float = 1e-4%float)
    /\ (forall k, (n0 - 1) * Np.size_of rest <= k < n0 * Np.size_of rest ->
          nth k (data r) 0%float = 0.999%float).
Proof.
  intros Hs Hd Hn Hst.
  assert (Hpos : 0 < n0 * Np.size_of rest) by nia.
  destruct (shaper_from_ok a n0 rest Hs Hd Hpos)
    as (d & m & mx & _ & Hlen & _ & _ & Hr).
  destruct (last_block n0 (Np.size_of rest) Hpos) as [H1 H2].
  assert (H3 : Np.size_of rest <= (n0 - 1) * Np.size_of rest) by nia.
  eexists. split; [exact Hr|]. cbn [shape data].
  set (q := map (fun x => PrimFloat.div (PrimFloat.sub x m) mx) d).
  assert (Hq : length q = n0 * Np.size_of rest) by (unfold q; now rewrite length_map).
  assert (Hq1 : length (Np.fill q 0 (Np.size_of rest) 1e-4) = n0 * Np.size_of rest)
    by (rewrite fill_length; lia).
  split; [reflexivity|]. split; [apply fill_ends_length; assumption|]. split.
  - intros k Hk. rewrite fill_nth by lia.
    destruct (Nat.leb_spec ((n0 - 1) * Np.size_of rest) k); [lia|]. cbn [andb].
    rewrite fill_nth by lia. cbn [Nat.leb Nat.add andb].
    destruct (Nat.ltb_spec k (Np.size_of rest)); [reflexivity|lia].
  - intros k Hk. rewrite fill_nth by lia.
    destruct (Nat.leb_spec ((n0 - 1) * Np.size_of rest) k); [|lia].
    destruct (Nat.ltb_spec k ((n0 - 1) * Np.size_of rest + Np.size_of rest));
      [reflexivity|lia].
Qed.

(** C9: for a shape (1, L) with L >= 1, whatever the generator draws, the
    shaper returns the array of shape (1, L) whose every element is 0.999
    (and has consumed L values of the generator). *)
Theorem shaper_row_vector_constant (g : rng) (L : nat) :
  1 <= L ->
  get_normal_shaped_array [1; L] g
  = Ok (mk_ndarray [1; L] (repeat 0.999%float L), mk_rng (tape g) (pos g + L)).
Proof.
  intros HL. unfold get_normal_shaped_array, mbind, draw, lift.
  assert (Hst : Np.size_of [1; L] = L) by (cbn; lia).
  unfold Np.random_normal. rewrite Hst.
  rewrite shaper_from_extent_one with (L := L);
    [reflexivity | reflexivity | | exact HL].
  cbn [data]. now rewrite length_map, length_seq.
Qed.

Lemma shaper_row_vector_constant_witness :
  1 <= 3 /\
  get_normal_shaped_array [1; 3] g_falling
  = Ok (mk_ndarray [1; 3] (repeat 0.999%float 3),
        mk_rng (tape g_falling) (pos g_falling + 3)).
Proof.
  split; [lia | apply (shaper_row_vector_constant g_falling 3); lia].
Defined.

(** C1, at the draw [[0.5, -0.5, -1.5]] of shape (1, 3): the shaper returns
    [[0.999, 0.999, 0.999]]; the first value of the sample is 0.999 and not
    1e-4. *)
Theorem shaper_first_value_overwritten :
  falling_draw = mk_ndarray [1; 3] [0.5; -0.5; -1.5]%float
  /\ exists a g',
       get_normal_shaped_array [1; 3] g_falling = Ok (a, g')
       /\ a = mk_ndarray [1; 3] [0.999; 0.999; 0.999]%float
       /\ nth 0 (data a) 0%float <> 1e-4%float.
Proof.
  split; [vm_compute; reflexivity|].
  exists (mk_ndarray [1; 3] [0.999; 0.999; 0.999]%float), (mk_rng falling_tape 3).
  split; [vm_compute; reflexivity|]. split; [reflexivity|].
  cbn [data nth]. intros H.
  apply (f_equal (fun x => PrimFloat.ltb x 0.5)) in H. vm_compute in H.
  discriminate H.
Qed.

(** C2, at the same draw: the sort along axis 0 returns the row as it was
    drawn, in decreasing order, whereas sorted along the sample axis the row
    would read -1.5, -0.5, 0.5. *)
Theorem sort_axis0_leaves_sample_unsorted :
  Np.sort_axis0 falling_draw = Ok falling_draw
  /\ data falling_draw = [0.5; -0.5; -1.5]%float
  /\ Np.sort_lane (data falling_draw) = [-1.5; -0.5; 0.5]%float
  /\ PrimFloat.leb 0.5 (-0.5) = false.
Proof. repeat split; vm_compute; reflexivity. Qed.

(** C3 as stated fails: on the all-equal draw [[0.25, 0.25, 0.25]] the
    shaper raises nothing. *)
Lemma shaper_equal_draw_returns :
  ~ signals_error (get_normal_shaped_array [1; 3] g_flat).
Proof. intros [e H]. vm_compute in H. discriminate H. Qed.

(** C3, amended: on a noise array with at least one axis and at least one
    element, whose values are all equal, the shaper raises nothing.  It
    divides by the zero range and returns an array of the same shape, in
    which every entry of the first axis other than the first and the last
    (those two are overwritten) holds nan. *)
Theorem shaper_equal_draw_no_error (n0 : nat) (rest : list nat) (x : float) :
  0 < n0 * Np.size_of rest ->
  exists r,
    get_normal_shaped_array_from
      (mk_ndarray (n0 :: rest) (repeat x (n0 * Np.size_of rest))) = Ok r
    /\ shape r = n0 :: rest
    /\ length (data r) = n0 * Np.size_of rest
    /\ forall k, Np.size_of rest <= k < (n0 - 1) * Np.size_of rest ->
         PrimFloat.is_nan (nth k (data r) 0%float) = true.
Proof.
  intros Hpos.
  set (a := mk_ndarray (n0 :: rest) (repeat x (n0 * Np.size_of rest))).
  assert (Hd : length (data a) = n0 * Np.size_of rest) by apply repeat_length.
  destruct (shaper_from_ok a n0 rest eq_refl Hd Hpos)
    as (d & m & mx & Hsort & Hlen & Hmin & Hmax & Hr).
  destruct (sort_axis0_ok a n0 rest eq_refl) as (d' & Hsort' & _ & HF).
  rewrite Hsort in Hsort'. injection Hsort' as <-.
  assert (Hrep : d = repeat x (n0 * Np.size_of rest)).
  { rewrite <- Hlen. apply Forall_eq_repeat, HF; [exact Hd|].
    apply Forall_forall. intros y Hy. symmetry. exact (repeat_spec _ _ _ Hy). }
  rewrite Hrep in Hmin, Hmax, Hr.
  remember (n0 * Np.size_of rest) as N0 eqn:HN.
  destruct N0 as [|N]; [lia|].
  cbn [repeat Np.amin Np.amax Np.sub_scalar data map] in Hmin, Hmax.
  rewrite fold_fmin_repeat in Hmin. injection Hmin as <-.
  rewrite map_repeat, fold_fmax_repeat in Hmax. injection Hmax as <-.
  change (x :: repeat x N) with (repeat x (S N)) in Hr.
  rewrite map_repeat in Hr.
  eexists. split; [exact Hr|]. cbn [shape data].
  assert (Hn0 : 1 <= n0) by (destruct n0; [discriminate HN | lia]).
  assert (H1 : Np.size_of rest <= S N) by nia.
  assert (H2 : (n0 - 1) * Np.size_of rest + Np.size_of rest = S N) by nia.
  assert (Hl1 : length (Np.fill (repeat ((x - x) / (x - x))%float (S N))
                          0 (Np.size_of rest) 1e-4) = S N)
    by (rewrite fill_length; rewrite repeat_length; lia).
  split; [reflexivity|]. split.
  - rewrite fill_length; [exact Hl1|]. rewrite Hl1. lia.
  - intros k Hk.
    rewrite fill_nth by (rewrite Hl1; lia).
    destruct (Nat.leb_spec ((n0 - 1) * Np.size_of rest) k); [lia|]. cbn [andb].
    rewrite fill_nth by (rewrite repeat_length; lia).
    destruct (Nat.ltb_spec k (0 + Np.size_of rest)); [lia|]. rewrite andb_false_r.
    rewrite nth_indep with (d' := ((x - x) / (x - x))%float)
      by (rewrite repeat_length; lia).
    rewrite nth_repeat. apply self_range_quotient_nan.
Qed.

Lemma shaper_equal_draw_no_error_witness :
  0 < 3 * Np.size_of [] /\
  exists r,
    get_normal_shaped_array_from
      (mk_ndarray [3] (repeat 0.25%float (3 * Np.size_of []))) = Ok r
    /\ shape r = [3]
    /\ length (data r) = 3 * Np.size_of []
    /\ forall k, Np.size_of [] <= k < (3 - 1) * Np.size_of [] ->
         PrimFloat.is_nan (nth k (data r) 0%float) = true.
Proof.
  split; [cbn; lia | apply (shaper_equal_draw_no_error 3 [] 0.25%float); cbn; lia].
Defined.

(** ** Batches of shaped arrays *)

(** The loop of [get_normal_shaped_arrays] appends, for every round [i],
    the shaper's result on the [i]-th draw. *)
Lemma shaped_loop_ok n0 rest (n : nat) :
  0 < n0 * Np.size_of rest ->
  forall (acc : list ndarray) (g : rng),
  exists rs,
    shaped_loop n (n0 :: rest) acc g
    = Ok (acc ++ rs, mk_rng (tape g) (n * (n0 * Np.size_of rest) + pos g))
    /\ length rs = n
    /\ (forall r, In r rs -> length (data r) = n0 * Np.size_of rest)
    /\ forall i, i < n ->
         get_normal_shaped_array_from (nth_draw g (n0 :: rest) i)
         = Ok (nth i rs (mk_ndarray [] [])).
Proof.
  intros Hpos. induction n as [|n IH]; intros acc g.
  - exists []. rewrite app_nil_r. destruct g as [t p].
    repeat split; [intros r [] | intros i Hi; lia].
  - set (a := nth_draw g (n0 :: rest) 0).
    assert (Ha : length (data a) = n0 * Np.size_of rest)
      by (cbn; now rewrite length_map, length_seq).
    destruct (shaper_from_ok a n0 rest eq_refl Ha Hpos)
      as (d & m & mx & _ & Hlen & _ & _ & Hr).
    match type of Hr with _ = Ok ?v => set (r0 := v) in * end.
    destruct (IH (acc ++ [r0]) (mk_rng (tape g) (n0 * Np.size_of rest + pos g)))
      as (rs & Hloop & Hlrs & Hall & Hnth).
    exists (r0 :: rs).
    cbn [shaped_loop]. unfold mbind at 1.
    replace (get_normal_shaped_array (n0 :: rest) g)
      with (Ok (r0, mk_rng (tape g) (n0 * Np.size_of rest + pos g))).
    2:{ unfold get_normal_shaped_array, mbind, draw, lift.
        destruct g as [t p]. unfold a, nth_draw in Hr.
        cbn [Np.random_normal tape pos fst Nat.mul Nat.add Np.size_of fold_right] in *.
        change (fold_right Nat.mul 1 rest) with (Np.size_of rest) in *.
        rewrite Hr. do 3 f_equal. lia. }
    rewrite Hloop. cbn [tape pos]. rewrite <- app_assoc. cbn [app].
    split; [do 3 f_equal; lia|].
    split; [cbn; lia|]. split.
    + intros r [<-|Hin]; [|apply Hall, Hin].
      unfold r0. cbn [data]. apply fill_ends_length; [|exact Hpos].
      now rewrite length_map.
    + intros [|i] Hi; cbn [nth]; [exact Hr|].
      rewrite <- Hnth by lia. apply f_equal.
      unfold nth_draw. cbn [tape pos Np.random_normal fst]. apply f_equal.
      apply map_ext. intros k. f_equal.
      change (Np.size_of (n0 :: rest)) with (n0 * Np.size_of rest). lia.
Qed.

(** [get_normal_shaped_arrays(n, (1, L))] returns an array of shape (n, L)
    whose [i]-th row is what the shaper made of the [i]-th draw. *)
Lemma shaped_arrays_rows (n L : nat) (g : rng) :
  1 <= L ->
  exists X,
    get_normal_shaped_arrays n [1; L] g = Ok (X, mk_rng (tape g) (n * L + pos g))
    /\ shape X = [n; L]
    /\ forall i, i < n ->
         exists r, get_normal_shaped_array_from (nth_draw g [1; L] i) = Ok r
                   /\ length (data r) = L
                   /\ Np.row X i = data r.
Proof.
  intros HL.
  assert (Hst : Np.size_of [L] = L) by (cbn; lia).
  assert (Hpos : 0 < 1 * Np.size_of [L]) by lia.
  destruct (shaped_loop_ok 1 [L] n Hpos [] g) as (rs & Hloop & Hlrs & Hall & Hnth).
  rewrite Hst in *. rewrite Nat.mul_1_l in *.
  assert (Hsz : Np.size_of [n; L] = length (flat_map data rs)).
  { rewrite flat_map_const_length with (k := L) by exact Hall.
    rewrite Hlrs. cbn. lia. }
  exists (mk_ndarray [n; L] (flat_map data rs)).
  split; [|split; [reflexivity|]].
  - unfold get_normal_shaped_arrays, mbind, lift. rewrite Hloop.
    cbn [app Py.bind]. change (Py.getitem [1; L] 1) with (@Ok nat L).
    cbn [Py.bind]. unfold Np.reshape, Np.stack. cbn [data].
    rewrite Hsz, Nat.eqb_refl. reflexivity.
  - intros i Hi. exists (nth i rs (mk_ndarray [] [])).
    split; [apply Hnth, Hi|].
    split; [apply Hall, nth_In; lia|].
    unfold Np.row, Np.stride. cbn [shape tl data]. rewrite Hst.
    apply firstn_skipn_flat_map; [exact Hall | lia].
Qed.

Lemma latent_count_pos : 0 < latent_count.
Proof. apply Nat.ltb_lt. vm_compute. reflexivity. Qed.

(** C8 as stated fails: with the generator drawing 0.5, -0.5, -1.5, ... the
    first latent vector handed to the generator training is not the first
    draw. *)
Lemma latent_batch_not_raw_draws :
  exists X g',
    generator_training_input g_falling = Ok (X, g')
    /\ Np.row X 0 <> data (nth_draw g_falling [1; latent_width] 0).
Proof.
  destruct (shaped_arrays_rows latent_count latent_width g_falling)
    as (X & HX & _ & Hrows); [unfold latent_width; lia|].
  exists X. eexists. split; [exact HX|].
  destruct (Hrows 0 latent_count_pos) as (r & Hr & _ & ->).
  vm_compute in Hr. injection Hr as <-. cbn [data]. intros H.
  apply (f_equal (fun l => PrimFloat.ltb (hd 0%float l) 0.75)) in H.
  vm_compute in H. discriminate H.
Qed.

(** C8, amended: the latent batch handed to the generator training has
    shape (100000, 16), and its [i]-th latent vector is the length-16 result
    of the distribution shaper on the [i]-th standard-normal draw of shape
    (1, 16). *)
Theorem latent_batch_is_shaper_output (g : rng) :
  exists X g',
    generator_training_input g = Ok (X, g')
    /\ shape X = [latent_count; latent_width]
    /\ forall i, i < latent_count ->
         exists r,
           get_normal_shaped_array_from (nth_draw g [1; latent_width] i) = Ok r
           /\ length (Np.row X i) = latent_width
           /\ Np.row X i = data r.
Proof.
  destruct (shaped_arrays_rows latent_count latent_width g)
    as (X & HX & Hsh & Hrows); [unfold latent_width; lia|].
  exists X. eexists. split; [exact HX|]. split; [exact Hsh|].
  intros i Hi. destruct (Hrows i Hi) as (r & Hr & Hlen & Hrow).
  exists r. rewrite Hrow. auto.
Qed.

Lemma latent_batch_is_shaper_output_witness :
  exists X g',
    generator_training_input g_flat = Ok (X, g')
    /\ shape X = [latent_count; latent_width]
    /\ forall i, i < latent_count ->
         exists r,
           get_normal_shaped_array_from (nth_draw g_flat [1; latent_width] i) = Ok r
           /\ length (Np.row X i) = latent_width
           /\ Np.row X i = data r.
Proof. exact (latent_batch_is_shaper_output g_flat). Defined.

(* ================================================================== *)
(** * Python sequences: indexing and slicing                           *)
(* ================================================================== *)

Lemma getitem_nat {A} (l : list A) (i : nat) :
  Py.getitem l (Z.of_nat i)
  = match nth_error l i with Some a => Ok a | None => Raise Py.IndexError end.
Proof.
  unfold Py.getitem.
  assert (E : (Z.of_nat i <? 0)%Z = false) by (apply Z.ltb_ge; lia).
  rewrite E. cbv zeta. rewrite E, Nat2Z.id. reflexivity.
Qed.

Lemma skipn_nth_error {A} (l : list A) (k : nat) (a : A) :
  nth_error l k = Some a -> skipn k l = a :: skipn (S k) l.
Proof.
  revert l. induction k as [|k IH]; intros [|b l] H; try discriminate H.
  - injection H as <-. reflexivity.
  - cbn [nth_error] in H. cbn [skipn]. rewrite (IH l H). reflexivity.
Qed.

Lemma slice_to_from {A} (l : list A) (i : Z) :
  Py.slice_to l i ++ Py.slice_from l i = l.
Proof. apply firstn_skipn. Qed.

(** [l[:-z]] and [l[-z:]] when [z] is zero or at least [len(l)]: the first
    slice is empty and the second is the whole list. *)
Lemma slices_degenerate {A} (l : list A) (z : Z) :
  (z = 0 \/ Py.len l <= z)%Z ->
  Py.slice_to l (- z) = [] /\ Py.slice_from l (- z) = l.
Proof.
  intros Hz. unfold Py.slice_to, Py.slice_from.
  assert (E : Py.slice_bound (Py.len l) (- z) = 0).
  { unfold Py.slice_bound, Py.len in *.
    destruct (Z.ltb_spec (- z) 0); lia. }
  rewrite E. split; reflexivity.
Qed.

(** [l[:-z]] and [l[-z:]] for [0 < z <= len(l)]: all but the last [z]
    elements, and the last [z] elements. *)
Lemma slices_tail {A} (l : list A) (z : Z) :
  (0 < z <= Py.len l)%Z ->
  Py.slice_to l (- z) = firstn (length l - Z.to_nat z) l
  /\ Py.slice_from l (- z) = skipn (length l - Z.to_nat z) l.
Proof.
  intros Hz. unfold Py.slice_to, Py.slice_from.
  assert (E : Py.slice_bound (Py.len l) (- z) = length l - Z.to_nat z).
  { unfold Py.slice_bound, Py.len in *.
    destruct (Z.ltb_spec (- z) 0); lia. }
  rewrite E. split; reflexivity.
Qed.

(** [l[:-z]] and [l[-z:]] for a negative [z]: the first [|z|] elements, and
    the rest. *)
Lemma slices_head {A} (l : list A) (z : Z) :
  (z < 0)%Z ->
  Py.slice_to l (- z) = firstn (Z.to_nat (- z)) l
  /\ Py.slice_from l (- z) = skipn (Z.to_nat (- z)) l.
Proof.
  intros Hz. unfold Py.slice_to, Py.slice_from, Py.slice_bound, Py.len.
  destruct (Z.ltb_spec (- z) 0); [lia|].
  destruct (Z.le_gt_cases (- z) (Z.of_nat (length l))) as [Hle|Hgt].
  - rewrite Z.min_l by lia. split; reflexivity.
  - rewrite Z.min_r by lia. rewrite Nat2Z.id.
    rewrite !firstn_all2, !skipn_all2 by lia. split; reflexivity.
Qed.

(* ================================================================== *)
(** * The interleaved dataset                                          *)
(* ================================================================== *)

Lemma interleave_length {A} (shaped real : list A) :
  length (interleave shaped real) = 2 * Nat.min (length shaped) (length real).
Proof.
  revert real. induction shaped as [|s shaped IH]; intros [|r real];
    cbn [interleave length Nat.min]; try lia.
  rewrite IH. lia.
Qed.

Lemma interleave_nth_error {A} (shaped real : list A) (i : nat) :
  i < length shaped -> i < length real ->
  nth_error (interleave shaped real) (2 * i) = nth_error shaped i
  /\ nth_error (interleave shaped real) (2 * i + 1) = nth_error real i.
Proof.
  revert shaped real.
  induction i as [|i IH]; intros [|s shaped] [|r real] Hs Hr;
    cbn [length] in Hs, Hr; try lia.
  - split; reflexivity.
  - replace (2 * S i) with (S (S (2 * i))) by lia.
    cbn [interleave nth_error Nat.add]. apply IH; lia.
Qed.

Lemma interleave_firstn {A} (shaped real : list A) :
  interleave shaped (firstn (length shaped) real) = interleave shaped real.
Proof.
  revert real. induction shaped as [|s shaped IH]; intros [|r real];
    cbn [interleave length firstn]; try reflexivity.
  now rewrite IH.
Qed.

Lemma alternating_labels_length n : length (alternating_labels n) = 2 * n.
Proof. induction n as [|n IH]; cbn [alternating_labels length]; lia. Qed.

Lemma alternating_labels_nth_error n i :
  i < n ->
  nth_error (alternating_labels n) (2 * i) = Some fake_label
  /\ nth_error (alternating_labels n) (2 * i + 1) = Some real_label.
Proof.
  revert n. induction i as [|i IH]; intros [|n] Hi; try lia.
  - split; reflexivity.
  - replace (2 * S i) with (S (S (2 * i))) by lia.
    cbn [alternating_labels nth_error Nat.add]. apply IH. lia.
Qed.

(* ================================================================== *)
(** * The dataset assembler                                            *)
(* ================================================================== *)

Lemma shape_eqb_refl (s : list nat) : Np.shape_eqb s s = true.
Proof.
  induction s as [|n s IH]; [reflexivity|].
  cbn [Np.shape_eqb]. now rewrite Nat.eqb_refl, IH.
Qed.

(** [np.array] returns the list it is given when the elements have one
    shape. *)
Lemma array_ok {A} `{Np.Shaped A} (sh : list nat) (l : list A) :
  all_shaped sh l -> Np.array l = Ok l.
Proof.
  intros Hl. unfold Np.array.
  assert (E : Np.same_shape l = true); [|now rewrite E].
  destruct Hl as [|a l Ha Hl]; [reflexivity|].
  cbn [Np.same_shape]. apply forallb_forall. intros b Hb.
  rewrite Forall_forall in Hl. rewrite (Hl b Hb), Ha. apply shape_eqb_refl.
Qed.

Lemma all_shaped_firstn {A} `{Np.Shaped A} (sh : list nat) (l : list A) (n : nat) :
  all_shaped sh l -> all_shaped sh (firstn n l).
Proof.
  intros Hl. rewrite <- (firstn_skipn n l) in Hl.
  exact (proj1 (proj1 (Forall_app _ _ _) Hl)).
Qed.

Lemma all_shaped_skipn {A} `{Np.Shaped A} (sh : list nat) (l : list A) (n : nat) :
  all_shaped sh l -> all_shaped sh (skipn n l).
Proof.
  intros Hl. rewrite <- (firstn_skipn n l) in Hl.
  exact (proj2 (proj1 (Forall_app _ _ _) Hl)).
Qed.

Lemma all_shaped_interleave {A} `{Np.Shaped A} (sh : list nat)
    (shaped real : list A) :
  all_shaped sh (shaped ++ real) -> all_shaped sh (interleave shaped real).
Proof.
  intros Hl. apply Forall_app in Hl. destruct Hl as [Hs Hr]. revert real Hr.
  induction Hs as [|s shaped Hs Hs' IH]; intros real Hr; [constructor|].
  destruct Hr as [|r real Hr Hr']; [constructor|].
  cbn [interleave]. constructor; [exact Hs|]. constructor; [exact Hr|].
  apply IH, Hr'.
Qed.

Lemma all_shaped_labels (n : nat) : all_shaped [2] (alternating_labels n).
Proof. induction n as [|n IH]; repeat constructor. exact IH. Qed.

Section AssemblerFacts.

Context {sample : Type} `{Np.Shaped sample}.
Implicit Types shaped real X : list sample.
Implicit Types y : list label.

(** The loop over indices [k .. k+m-1], all of them within both inputs. *)
Lemma assemble_loop_ok shaped real (m : nat) : forall (k : nat) X y,
  k + m <= length shaped -> k + m <= length real ->
  assemble_loop shaped real (seq k m) X y
  = Ok (X ++ interleave (firstn m (skipn k shaped)) (firstn m (skipn k real)),
        y ++ alternating_labels m).
Proof.
  induction m as [|m IH]; intros k X y Hs Hr.
  - cbn. now rewrite !app_nil_r.
  - cbn [seq assemble_loop]. rewrite !getitem_nat.
    destruct (nth_error shaped k) as [s|] eqn:Es;
      [|apply nth_error_None in Es; lia].
    destruct (nth_error real k) as [r|] eqn:Er;
      [|apply nth_error_None in Er; lia].
    cbn [Py.bind]. rewrite IH by lia.
    rewrite (skipn_nth_error _ _ _ Es), (skipn_nth_error _ _ _ Er).
    cbn [firstn interleave alternating_labels].
    rewrite <- !app_assoc. reflexivity.
Qed.

(** The loop when [mnist_data] ends before the indices do. *)
Lemma assemble_loop_short shaped real (m : nat) : forall (k : nat) X y,
  k + m <= length shaped -> k <= length real -> length real < k + m ->
  assemble_loop shaped real (seq k m) X y = Raise Py.IndexError.
Proof.
  induction m as [|m IH]; intros k X y Hs Hk Hr; [lia|].
  cbn [seq assemble_loop]. rewrite !getitem_nat.
  destruct (nth_error shaped k) as [s|] eqn:Es;
    [|apply nth_error_None in Es; lia].
  cbn [Py.bind].
  destruct (nth_error real k) as [r|] eqn:Er; [|reflexivity].
  cbn [Py.bind]. apply IH; try lia.
  assert (k < length real) by (apply nth_error_Some; congruence). lia.
Qed.

Lemma train_set_ok shaped real (sh : list nat) :
  length shaped <= length real ->
  all_shaped sh (shaped ++ real) ->
  get_discriminator_train_set shaped real
  = Ok (interleave shaped real, alternating_labels (length shaped)).
Proof.
  intros Hlen Hsh. unfold get_discriminator_train_set.
  rewrite assemble_loop_ok by lia. cbn [skipn app Py.bind].
  rewrite firstn_all, interleave_firstn.
  rewrite (array_ok sh) by (apply all_shaped_interleave, Hsh).
  cbn [Py.bind]. rewrite (array_ok [2]) by apply all_shaped_labels.
  reflexivity.
Qed.

(** [discriminator_train_test_set] once the split index is known. *)
Lemma train_test_set_ok shaped real (sh : list nat) (f : float) (z : Z) :
  length shaped <= length real ->
  all_shaped sh (shaped ++ real) ->
  Py.int_of_float (Py.mul_int_float (Z.of_nat (2 * length shaped)) f) = Ok z ->
  discriminator_train_test_set shaped real f
  = Ok (Py.slice_to (interleave shaped real) (- z),
        Py.slice_to (alternating_labels (length shaped)) (- z),
        Py.slice_from (interleave shaped real) (- z),
        Py.slice_from (alternating_labels (length shaped)) (- z)).
Proof.
  intros Hlen Hsh Hz. unfold discriminator_train_test_set.
  rewrite assemble_loop_ok by lia. cbn [skipn app Py.bind].
  rewrite firstn_all, interleave_firstn.
  unfold Py.len at 1. rewrite interleave_length, Nat.min_l by exact Hlen.
  rewrite Hz. cbn [Py.bind].
  pose proof (all_shaped_interleave sh shaped real Hsh) as HX.
  pose proof (all_shaped_labels (length shaped)) as Hy.
  rewrite (array_ok sh) by (apply all_shaped_firstn, HX). cbn [Py.bind].
  rewrite (array_ok [2]) by (apply all_shaped_firstn, Hy). cbn [Py.bind].
  rewrite (array_ok sh) by (apply all_shaped_skipn, HX). cbn [Py.bind].
  rewrite (array_ok [2]) by (apply all_shaped_skipn, Hy). reflexivity.
Qed.

End AssemblerFacts.

(** C4: for inputs of the same length [n] whose samples have one shape,
    [get_discriminator_train_set] returns a dataset of length [2n] holding
    [shaped[i]] with label [1, 0] at position [2i] and [real[i]] with label
    [0, 1] at position [2i + 1]; [discriminator_train_test_set] assembles the
    same dataset and returns it cut in two. *)
Theorem assembler_interleaves (sample : Type) `{Np.Shaped sample}
    (shaped real : list sample) (sh : list nat) (n : nat) :
  length shaped = n -> length real = n ->
  all_shaped sh (shaped ++ real) ->
  exists X y,
    get_discriminator_train_set shaped real = Ok (X, y)
    /\ length X = 2 * n /\ length y = 2 * n
    /\ (forall i, i < n ->
          nth_error X (2 * i) = nth_error shaped i
          /\ nth_error y (2 * i) = Some [1; 0]%Z
          /\ nth_error X (2 * i + 1) = nth_error real i
          /\ nth_error y (2 * i + 1) = Some [0; 1]%Z)
    /\ (forall f z,
          Py.int_of_float (Py.mul_int_float (Z.of_nat (2 * n)) f) = Ok z ->
          exists X_train y_train X_test y_test,
            discriminator_train_test_set shaped real f
            = Ok (X_train, y_train, X_test, y_test)
            /\ X_train ++ X_test = X /\ y_train ++ y_test = y).
Proof.
  intros Hs Hr Hsh. exists (interleave shaped real), (alternating_labels n).
  split; [rewrite (train_set_ok shaped real sh) by (lia || exact Hsh);
          now rewrite Hs|].
  split; [rewrite interleave_length; lia|].
  split; [apply alternating_labels_length|]. split.
  - intros i Hi.
    destruct (interleave_nth_error shaped real i) as [H1 H2]; try lia.
    destruct (alternating_labels_nth_error n i Hi) as [H3 H4]. auto.
  - intros f z Hz. do 4 eexists. subst n.
    rewrite (train_test_set_ok shaped real sh f z) by (lia || assumption).
    split; [reflexivity|]. split; apply slice_to_from.
Qed.

Lemma assembler_interleaves_witness :
  exists X y,
    get_discriminator_train_set [1; 2; 3] [4; 5; 6] = Ok (X, y)
    /\ length X = 2 * 3 /\ length y = 2 * 3
    /\ (forall i, i < 3 ->
          nth_error X (2 * i) = nth_error [1; 2; 3] i
          /\ nth_error y (2 * i) = Some [1; 0]%Z
          /\ nth_error X (2 * i + 1) = nth_error [4; 5; 6] i
          /\ nth_error y (2 * i + 1) = Some [0; 1]%Z)
    /\ (forall f z,
          Py.int_of_float (Py.mul_int_float (Z.of_nat (2 * 3)) f) = Ok z ->
          exists X_train y_train X_test y_test,
            discriminator_train_test_set [1; 2; 3] [4; 5; 6] f
            = Ok (X_train, y_train, X_test, y_test)
            /\ X_train ++ X_test = X /\ y_train ++ y_test = y).
Proof.
  apply (assembler_interleaves nat [1; 2; 3] [4; 5; 6] [] 3);
    [reflexivity | reflexivity | repeat constructor].
Defined.

(** For a split index between 1 and the length of the dataset the split is
    the one documented: the test set is the last [z] examples, the training
    set everything before them. *)
Lemma split_positive_index (sample : Type) `{Np.Shaped sample}
    (shaped real : list sample) (sh : list nat) (f : float) (z : Z) :
  length shaped <= length real ->
  all_shaped sh (shaped ++ real) ->
  Py.int_of_float (Py.mul_int_float (Z.of_nat (2 * length shaped)) f) = Ok z ->
  (0 < z <= Z.of_nat (2 * length shaped))%Z ->
  discriminator_train_test_set shaped real f
  = Ok (firstn (2 * length shaped - Z.to_nat z) (interleave shaped real),
        firstn (2 * length shaped - Z.to_nat z) (alternating_labels (length shaped)),
        skipn (2 * length shaped - Z.to_nat z) (interleave shaped real),
        skipn (2 * length shaped - Z.to_nat z) (alternating_labels (length shaped))).
Proof.
  intros Hlen Hsh Hz Hrange.
  rewrite (train_test_set_ok shaped real sh f z Hlen Hsh Hz).
  assert (HX : length (interleave shaped real) = 2 * length shaped)
    by (rewrite interleave_length; lia).
  pose proof (alternating_labels_length (length shaped)) as Hy.
  destruct (slices_tail (interleave shaped real) z) as [-> ->];
    [unfold Py.len; lia|].
  destruct (slices_tail (alternating_labels (length shaped)) z) as [-> ->];
    [unfold Py.len; lia|].
  now rewrite HX, Hy.
Qed.

(** A dataset of 100 examples split with fraction 0.1: 90 training examples
    and the last 10 examples for testing. *)
Example split_100_by_tenth :
  exists X_train y_train X_test y_test,
    discriminator_train_test_set (seq 0 50) (seq 100 50) 0.1%float
    = Ok (X_train, y_train, X_test, y_test)
    /\ length X_train = 90
    /\ X_test = skipn 90 (interleave (seq 0 50) (seq 100 50))
    /\ X_test = [45; 145; 46; 146; 47; 147; 48; 148; 49; 149].
Proof. do 4 eexists. repeat split; vm_compute; reflexivity. Qed.

(** C5, at fraction 0.0 and at fraction 0.1 on a dataset of 6 examples: the
    split index is 0, the training set comes back empty and the test set is
    the whole dataset. *)
Theorem split_index_zero_swaps_sets :
  Py.int_of_float (Py.mul_int_float 6 0.1%float) = Ok 0%Z
  /\ discriminator_train_test_set [1; 2; 3] [4; 5; 6] 0.1%float
     = Ok ([], [], [1; 4; 2; 5; 3; 6], alternating_labels 3)
  /\ discriminator_train_test_set [1; 2; 3] [4; 5; 6] 0%float
     = Ok ([], [], [1; 4; 2; 5; 3; 6], alternating_labels 3).
Proof. repeat split; vm_compute; reflexivity. Qed.

(** C10: with fraction 0 the split of a dataset whose samples have one
    shape returns an empty training set and the whole dataset as the test
    set. *)
Theorem split_fraction_zero (sample : Type) `{Np.Shaped sample}
    (shaped real : list sample) (sh : list nat) :
  length shaped <= length real ->
  all_shaped sh (shaped ++ real) ->
  discriminator_train_test_set shaped real 0%float
  = Ok ([], [], interleave shaped real, alternating_labels (length shaped)).
Proof.
  intros Hlen Hsh.
  rewrite (train_test_set_ok shaped real sh 0%float 0%Z Hlen Hsh
             (int_of_zero_product _)).
  destruct (slices_degenerate (interleave shaped real) 0) as [-> ->]; [now left|].
  destruct (slices_degenerate (alternating_labels (length shaped)) 0) as [-> ->];
    [now left|].
  reflexivity.
Qed.

Lemma split_fraction_zero_witness :
  length [1; 2; 3] <= length [4; 5; 6] /\
  discriminator_train_test_set [1; 2; 3] [4; 5; 6] 0%float
  = Ok ([], [], interleave [1; 2; 3] [4; 5; 6], alternating_labels (length [1; 2; 3])).
Proof.
  split; [cbn; lia|].
  apply (split_fraction_zero nat [1; 2; 3] [4; 5; 6] []);
    [cbn; lia | repeat constructor].
Defined.

(** Rows of different widths: the loop collects them and the final
    [np.array(X)] raises ValueError, in both assemblers. *)
Example assemblers_reject_ragged_rows :
  get_discriminator_train_set [[0.999; 0.999]%float] [[0; 0; 0]%float]
  = Raise Py.ValueError
  /\ discriminator_train_test_set [[0.999; 0.999]%float] [[0; 0; 0]%float] 0%float
     = Raise Py.ValueError.
Proof. split; vm_compute; reflexivity. Qed.

(** C6 as stated fails: with one shaped sample and two real samples both
    assemblers return a dataset. *)
Lemma assembler_longer_real_returns :
  ~ signals_error (get_discriminator_train_set [1] [4; 5])
  /\ ~ signals_error (discriminator_train_test_set [1] [4; 5] 0.5%float).
Proof. split; intros [e H]; vm_compute in H; discriminate H. Qed.

(** C6, amended: when [shaped] is the longer input both assemblers fail with
    IndexError; when [real] is the longer input and the samples have one
    shape, [get_discriminator_train_set] raises nothing and returns the
    dataset of length [2 * len(shaped)] built from [shaped] and the first
    [len(shaped)] real samples. *)
Theorem assembler_length_mismatch (sample : Type) `{Np.Shaped sample}
    (shaped real : list sample) (sh : list nat) :
  (length real < length shaped ->
     get_discriminator_train_set shaped real = Raise Py.IndexError
     /\ forall f, discriminator_train_test_set shaped real f = Raise Py.IndexError)
  /\ (length shaped < length real ->
      all_shaped sh (shaped ++ real) ->
        get_discriminator_train_set shaped real
        = Ok (interleave shaped (firstn (length shaped) real),
              alternating_labels (length shaped))
        /\ length (interleave shaped (firstn (length shaped) real))
           = 2 * length shaped).
Proof.
  split.
  - intros Hlen.
    assert (E : forall X y,
               assemble_loop shaped real (seq 0 (length shaped)) X y
               = Raise Py.IndexError)
      by (intros; apply assemble_loop_short; lia).
    split; [unfold get_discriminator_train_set; now rewrite E|].
    intros f. unfold discriminator_train_test_set. now rewrite E.
  - intros Hlen Hsh.
    rewrite (train_set_ok shaped real sh), interleave_firstn by (lia || exact Hsh).
    split; [reflexivity|]. rewrite interleave_length. lia.
Qed.

Lemma assembler_length_mismatch_witness :
  (get_discriminator_train_set [1; 2] [4] = Raise Py.IndexError
   /\ forall f, discriminator_train_test_set [1; 2] [4] f = Raise Py.IndexError)
  /\ (get_discriminator_train_set [1] [4; 5]
      = Ok (interleave [1] (firstn (length [1]) [4; 5]), alternating_labels (length [1]))
      /\ length (interleave [1] (firstn (length [1]) [4; 5])) = 2 * length [1]).
Proof.
  split.
  - apply (proj1 (assembler_length_mismatch nat [1; 2] [4] [])). cbn. lia.
  - apply (proj2 (assembler_length_mismatch nat [1] [4; 5] []));
      [cbn; lia | repeat constructor].
Defined.

(** C7 as stated fails: with fraction 1.5 the split raises nothing. *)
Lemma split_fraction_above_one_returns :
  ~ signals_error (discriminator_train_test_set [1; 2; 3] [4; 5; 6] 1.5%float).
Proof. intros [e H]. vm_compute in H. discriminate H. Qed.

(** C7, amended: for a dataset whose samples have one shape, whatever the
    fraction, inside [0, 1) or not, as long as [int(len(X) * fraction)] is
    defined the split raises nothing and returns two parts that make up the
    dataset.  When that index is at least the length of the dataset
    (fraction 1.5) the training set is empty and the test set is the whole
    dataset; when it is negative the training set is the first [|index|]
    examples and the test set the rest. *)
Theorem split_accepts_any_fraction (sample : Type) `{Np.Shaped sample}
    (shaped real : list sample) (sh : list nat) (f : float) (z : Z) :
  length shaped = length real ->
  all_shaped sh (shaped ++ real) ->
  Py.int_of_float (Py.mul_int_float (Z.of_nat (2 * length shaped)) f) = Ok z ->
  exists X_train y_train X_test y_test,
    discriminator_train_test_set shaped real f
    = Ok (X_train, y_train, X_test, y_test)
    /\ X_train ++ X_test = interleave shaped real
    /\ y_train ++ y_test = alternating_labels (length shaped)
    /\ ((Z.of_nat (2 * length shaped) <= z)%Z ->
        X_train = [] /\ y_train = []
        /\ X_test = interleave shaped real
        /\ y_test = alternating_labels (length shaped))
    /\ ((z < 0)%Z ->
        X_train = firstn (Z.to_nat (- z)) (interleave shaped real)
        /\ X_test = skipn (Z.to_nat (- z)) (interleave shaped real)).
Proof.
  intros Hlen Hsh Hz. do 4 eexists.
  rewrite (train_test_set_ok shaped real sh f z) by (lia || assumption).
  split; [reflexivity|].
  split; [apply slice_to_from|]. split; [apply slice_to_from|]. split.
  - intros Hbig.
    destruct (slices_degenerate (interleave shaped real) z) as [-> ->].
    { right. unfold Py.len. rewrite interleave_length. lia. }
    destruct (slices_degenerate (alternating_labels (length shaped)) z) as [-> ->].
    { right. unfold Py.len. rewrite alternating_labels_length. lia. }
    auto.
  - intros Hneg. exact (slices_head (interleave shaped real) z Hneg).
Qed.

Lemma split_accepts_any_fraction_witness :
  exists X_train y_train X_test y_test,
    discriminator_train_test_set [1; 2; 3] [4; 5; 6] 1.5%float
    = Ok (X_train, y_train, X_test, y_test)
    /\ X_train ++ X_test = interleave [1; 2; 3] [4; 5; 6]
    /\ y_train ++ y_test = alternating_labels (length [1; 2; 3])
    /\ ((Z.of_nat (2 * length [1; 2; 3]) <= 9)%Z ->
        X_train = [] /\ y_train = []
        /\ X_test = interleave [1; 2; 3] [4; 5; 6]
        /\ y_test = alternating_labels (length [1; 2; 3]))
    /\ ((9 < 0)%Z ->
        X_train = firstn (Z.to_nat (- 9)) (interleave [1; 2; 3] [4; 5; 6])
        /\ X_test = skipn (Z.to_nat (- 9)) (interleave [1; 2; 3] [4; 5; 6])).
Proof.
  apply (split_accepts_any_fraction nat [1; 2; 3] [4; 5; 6] [] 1.5%float 9%Z);
    [reflexivity | repeat constructor | vm_compute; reflexivity].
Defined.

(* ================================================================== *)
(** * Further properties of the shaper                                 *)
(* ================================================================== *)

Lemma firstn_repeat_le {A} (c : A) (k N : nat) :
  k <= N -> firstn k (repeat c N) = repeat c k.
Proof.
  revert N. induction k as [|k IH]; intros [|N] H; cbn; try reflexivity; try lia.
  f_equal. apply IH. lia.
Qed.

Lemma firstn_skipn_repeat {A} (c : A) (k i N : nat) :
  i + k <= N -> firstn k (skipn i (repeat c N)) = repeat c k.
Proof.
  revert N. induction i as [|i IH]; intros N H.
  - cbn [skipn]. apply firstn_repeat_le. lia.
  - destruct N as [|N]; [lia|]. cbn [repeat skipn]. apply IH. lia.
Qed.

Lemma flat_map_repeat_const {A B} (f : A -> list B) (a : A) (c : B) (k n : nat) :
  f a = repeat c k -> flat_map f (repeat a n) = repeat c (n * k).
Proof.
  intros Hf. induction n as [|n IH]; [reflexivity|].
  cbn [repeat flat_map Nat.mul]. now rewrite IH, Hf, repeat_app.
Qed.

(** X1: [np.sort(normal, axis=0)] on an array without nan: every lane of
    the first axis of the result is in non-decreasing order and holds the
    values of the same lane of the argument. *)
Theorem sort_axis0_sorts_lanes a n0 rest :
  shape a = n0 :: rest ->
  length (data a) = n0 * Np.size_of rest ->
  Forall Np.not_nan (data a) ->
  exists d,
    Np.sort_axis0 a = Ok (mk_ndarray (n0 :: rest) d)
    /\ length d = n0 * Np.size_of rest
    /\ forall j, j < Np.size_of rest ->
         Sorted Np.fle (Np.lane n0 (Np.size_of rest) d j)
         /\ Permutation (Np.lane n0 (Np.size_of rest) (data a) j)
                        (Np.lane n0 (Np.size_of rest) d j).
Proof.
  intros Hs Hd Hn.
  destruct (sort_axis0_ok a n0 rest Hs) as (d & Hsort & Hlen & _).
  exists d. split; [exact Hsort|]. split; [exact Hlen|].
  intros j Hj. rewrite (sort_axis0_lanes a n0 rest d j Hs Hsort Hj).
  apply sort_lane_sorted, lane_Forall; assumption.
Qed.

Lemma sort_axis0_sorts_lanes_witness :
  exists d,
    Np.sort_axis0 (mk_ndarray [3; 1] [0.5; -0.5; -1.5]%float)
    = Ok (mk_ndarray [3; 1] d)
    /\ length d = 3 * Np.size_of [1]
    /\ forall j, j < Np.size_of [1] ->
         Sorted Np.fle (Np.lane 3 (Np.size_of [1]) d j)
         /\ Permutation (Np.lane 3 (Np.size_of [1]) [0.5; -0.5; -1.5]%float j)
                        (Np.lane 3 (Np.size_of [1]) d j).
Proof.
  apply (sort_axis0_sorts_lanes (mk_ndarray [3; 1] [0.5; -0.5; -1.5]%float) 3 [1]);
    [reflexivity | reflexivity |].
  repeat constructor.
Defined.

(** X3: a shape that has an axis of extent 0 makes the shaper fail with
    ValueError (raised by [np.amin] on the empty array). *)
Theorem shaper_zero_size_raises (n0 : nat) (rest : list nat) (g : rng) :
  n0 * Np.size_of rest = 0 ->
  get_normal_shaped_array (n0 :: rest) g = Raise Py.ValueError.
Proof.
  intros Hz. unfold get_normal_shaped_array, mbind, draw, lift.
  set (a := fst (Np.random_normal (n0 :: rest) g)).
  change (Np.random_normal (n0 :: rest) g)
    with (a, mk_rng (tape g) (pos g + Np.size_of (n0 :: rest))).
  destruct (sort_axis0_ok a n0 rest eq_refl) as (d & Hsort & Hlen & _).
  unfold get_normal_shaped_array_from. rewrite Hsort. cbn [Py.bind].
  rewrite Hz in Hlen. destruct d; [reflexivity | discriminate Hlen].
Qed.

Lemma shaper_zero_size_raises_witness :
  get_normal_shaped_array [1; 0] g_falling = Raise Py.ValueError.
Proof. apply (shaper_zero_size_raises 1 [0] g_falling). reflexivity. Defined.

(** X4: on every shape of at least one axis and no axis of extent 0 the
    shaper returns an array of that shape, and the generator has advanced
    by exactly the number of elements. *)
Theorem shaper_returns_on_positive_size (n0 : nat) (rest : list nat) (g : rng) :
  0 < n0 * Np.size_of rest ->
  exists r,
    get_normal_shaped_array (n0 :: rest) g
    = Ok (r, mk_rng (tape g) (pos g + n0 * Np.size_of rest))
    /\ shape r = n0 :: rest
    /\ length (data r) = n0 * Np.size_of rest.
Proof.
  intros Hpos. unfold get_normal_shaped_array, mbind, draw, lift.
  set (a := fst (Np.random_normal (n0 :: rest) g)).
  change (Np.random_normal (n0 :: rest) g)
    with (a, mk_rng (tape g) (pos g + n0 * Np.size_of rest)).
  assert (Ha : length (data a) = n0 * Np.size_of rest).
  { unfold a. cbn [Np.random_normal fst data]. rewrite length_map, length_seq.
    reflexivity. }
  destruct (shaper_from_ok a n0 rest eq_refl Ha Hpos)
    as (d & m & mx & _ & Hlen & _ & _ & Hr).
  rewrite Hr. eexists. split; [reflexivity|]. split; [reflexivity|].
  cbn [data]. apply fill_ends_length; [|exact Hpos]. now rewrite length_map.
Qed.

Lemma shaper_returns_on_positive_size_witness :
  exists r,
    get_normal_shaped_array [2; 3] g_falling
    = Ok (r, mk_rng (tape g_falling) (pos g_falling + 2 * Np.size_of [3]))
    /\ shape r = [2; 3]
    /\ length (data r) = 2 * Np.size_of [3].
Proof. apply (shaper_returns_on_positive_size 2 [3] g_falling). cbn. lia. Defined.

(* ================================================================== *)
(** * Further properties of the batches                                *)
(* ================================================================== *)

(** The array every call of the shaper returns for shape (1, L). *)
Lemma shaped_loop_extent_one (n L : nat) (g : rng) :
  1 <= L ->
  shaped_loop n [1; L] [] g
  = Ok (repeat (mk_ndarray [1; L] (repeat 0.999%float L)) n,
        mk_rng (tape g) (n * L + pos g)).
Proof.
  intros HL.
  assert (Hst : Np.size_of [L] = L) by (cbn; lia).
  assert (Hpos : 0 < 1 * Np.size_of [L]) by lia.
  destruct (shaped_loop_ok 1 [L] n Hpos [] g) as (rs & Hloop & Hlrs & _ & Hnth).
  rewrite Hst, Nat.mul_1_l in Hloop. rewrite Hloop. cbn [app]. do 2 f_equal.
  rewrite <- Hlrs. apply Forall_eq_repeat, Forall_forall. intros r Hr.
  destruct (In_nth rs r (mk_ndarray [] []) Hr) as (i & Hi & <-).
  specialize (Hnth i ltac:(lia)).
  rewrite shaper_from_extent_one with (L := L) in Hnth;
    [ now injection Hnth | reflexivity | | exact HL ].
  unfold nth_draw. cbn [Np.random_normal fst data].
  rewrite length_map, length_seq. cbn. lia.
Qed.

Lemma shaped_arrays_extent_one (n L : nat) (g : rng) :
  1 <= L ->
  get_normal_shaped_arrays n [1; L] g
  = Ok (mk_ndarray [n; L] (repeat 0.999%float (n * L)),
        mk_rng (tape g) (n * L + pos g)).
Proof.
  intros HL. unfold get_normal_shaped_arrays, mbind, lift.
  rewrite shaped_loop_extent_one by exact HL.
  change (Py.getitem [1; L] 1) with (@Ok nat L). cbn [Py.bind].
  unfold Np.reshape, Np.stack. cbn [data].
  rewrite (flat_map_repeat_const data _ 0.999%float L n) by reflexivity.
  rewrite repeat_length.
  replace (Np.size_of [n; L]) with (n * L) by (cbn; lia).
  now rewrite Nat.eqb_refl.
Qed.

Lemma rows_constant (n L : nat) (c : float) :
  Np.rows (mk_ndarray [n; L] (repeat c (n * L))) = repeat (repeat c L) n.
Proof.
  unfold Np.rows, Np.row, Np.stride. cbn [shape hd tl data].
  replace (Np.size_of [L]) with L by (cbn; lia).
  transitivity (map (fun _ : nat => repeat c L) (seq 0 n)).
  - apply map_ext_in. intros i Hi. apply in_seq in Hi.
    apply firstn_skipn_repeat. nia.
  - now rewrite map_const, length_seq.
Qed.

(** X6: [get_normal_shaped_arrays(n, (1, L))] with L >= 1 returns the array
    of shape (n, L) whose every element is 0.999, whatever the generator
    draws, and has consumed n * L values of it. *)
Theorem shaped_arrays_all_constant (n L : nat) (g : rng) :
  1 <= L ->
  exists X,
    get_normal_shaped_arrays n [1; L] g
    = Ok (X, mk_rng (tape g) (n * L + pos g))
    /\ shape X = [n; L]
    /\ data X = repeat 0.999%float (n * L)
    /\ Np.rows X = repeat (repeat 0.999%float L) n.
Proof.
  intros HL. eexists. split; [apply shaped_arrays_extent_one, HL|].
  split; [reflexivity|]. split; [reflexivity|]. apply rows_constant.
Qed.

Lemma shaped_arrays_all_constant_witness :
  exists X,
    get_normal_shaped_arrays 2 [1; 3] g_falling
    = Ok (X, mk_rng (tape g_falling) (2 * 3 + pos g_falling))
    /\ shape X = [2; 3]
    /\ data X = repeat 0.999%float (2 * 3)
    /\ Np.rows X = repeat (repeat 0.999%float 3) 2.
Proof. apply (shaped_arrays_all_constant 2 3 g_falling). lia. Defined.

(** X7: with a one-dimensional shape (L,), L >= 1, the loop of
    [get_normal_shaped_arrays] runs to its end, making [n] arrays and
    drawing [n * L] values, and the function then fails with IndexError on
    [shape[1]]. *)
Theorem shaped_arrays_vector_shape_raises (n L : nat) (g : rng) :
  1 <= L ->
  (exists rs,
     shaped_loop n [L] [] g = Ok (rs, mk_rng (tape g) (n * L + pos g))
     /\ length rs = n)
  /\ get_normal_shaped_arrays n [L] g = Raise Py.IndexError.
Proof.
  intros HL.
  assert (Hpos : 0 < L * Np.size_of []) by (cbn; lia).
  destruct (shaped_loop_ok L [] n Hpos [] g) as (rs & Hloop & Hlrs & _).
  replace (L * Np.size_of []) with L in Hloop by (cbn; lia).
  cbn [app] in Hloop. split.
  - exists rs. split; [exact Hloop | exact Hlrs].
  - unfold get_normal_shaped_arrays, mbind, lift. rewrite Hloop. reflexivity.
Qed.

Lemma shaped_arrays_vector_shape_raises_witness :
  (exists rs,
     shaped_loop 2 [3] [] g_falling
     = Ok (rs, mk_rng (tape g_falling) (2 * 3 + pos g_falling))
     /\ length rs = 2)
  /\ get_normal_shaped_arrays 2 [3] g_falling = Raise Py.IndexError.
Proof. apply (shaped_arrays_vector_shape_raises 2 3 g_falling). lia. Defined.

(** X8: with a shape (r, c) of r >= 2 rows, c >= 1, and at least one array
    asked for, [get_normal_shaped_arrays] fails with ValueError: the
    n * r * c elements collected do not fit the shape (n, c) of the final
    reshape. *)
Theorem shaped_arrays_tall_shape_raises (n r c : nat) (g : rng) :
  1 <= n -> 2 <= r -> 1 <= c ->
  get_normal_shaped_arrays n [r; c] g = Raise Py.ValueError.
Proof.
  intros Hn Hr Hc.
  assert (Hst : Np.size_of [c] = c) by (cbn; lia).
  assert (Hpos : 0 < r * Np.size_of [c]) by nia.
  destruct (shaped_loop_ok r [c] n Hpos [] g) as (rs & Hloop & Hlrs & Hall & _).
  unfold get_normal_shaped_arrays, mbind, lift. rewrite Hloop. cbn [app].
  change (Py.getitem [r; c] 1) with (@Ok nat c). cbn [Py.bind].
  unfold Np.reshape, Np.stack. cbn [data].
  rewrite flat_map_const_length with (k := r * Np.size_of [c]) by exact Hall.
  rewrite Hlrs, Hst. replace (Np.size_of [n; c]) with (n * c) by (cbn; lia).
  destruct (Nat.eqb_spec (n * c) (n * (r * c))) as [E|_]; [nia|reflexivity].
Qed.

Lemma shaped_arrays_tall_shape_raises_witness :
  get_normal_shaped_arrays 1 [2; 3] g_falling = Raise Py.ValueError.
Proof. apply (shaped_arrays_tall_shape_raises 1 2 3 g_falling); lia. Defined.

(* ================================================================== *)
(** * Further properties of the train/test split                       *)
(* ================================================================== *)

Lemma combine_skipn {A B} (l : list A) (l' : list B) (n : nat) :
  combine (skipn n l) (skipn n l') = skipn n (combine l l').
Proof.
  revert l l'. induction n as [|n IH]; intros [|a l] [|b l']; cbn;
    try reflexivity.
  - now destruct (skipn n l).
  - apply IH.
Qed.

(** [float(n) * nan] is nan. *)
Lemma mul_int_nan n : Prim2SF (Py.mul_int_float n nan) = S754_nan.
Proof.
  unfold Py.mul_int_float. rewrite FloatAxioms.mul_spec.
  change (Prim2SF nan) with S754_nan.
  now destruct (Prim2SF (Py.float_of_int n)).
Qed.

(** X9: for a dataset whose samples have one shape, whatever the fraction,
    samples and labels are cut at the same place: each part has as many
    labels as samples, and the (sample, label) pairs of the training part
    followed by those of the test part are the pairs of the assembled
    dataset. *)
Theorem split_keeps_labels_aligned (sample : Type) `{Np.Shaped sample}
    (shaped real : list sample) (sh : list nat) (f : float) (z : Z) :
  length shaped <= length real ->
  all_shaped sh (shaped ++ real) ->
  Py.int_of_float (Py.mul_int_float (Z.of_nat (2 * length shaped)) f) = Ok z ->
  exists X_train y_train X_test y_test,
    discriminator_train_test_set shaped real f
    = Ok (X_train, y_train, X_test, y_test)
    /\ length X_train = length y_train
    /\ length X_test = length y_test
    /\ combine X_train y_train ++ combine X_test y_test
       = combine (interleave shaped real) (alternating_labels (length shaped)).
Proof.
  intros Hlen Hsh Hz. do 4 eexists.
  rewrite (train_test_set_ok shaped real sh f z Hlen Hsh Hz).
  split; [reflexivity|].
  assert (HX : length (interleave shaped real) = 2 * length shaped)
    by (rewrite interleave_length; lia).
  pose proof (alternating_labels_length (length shaped)) as Hy.
  unfold Py.slice_to, Py.slice_from, Py.len. rewrite HX, Hy.
  set (k := Py.slice_bound _ _).
  split; [rewrite !length_firstn; lia|].
  split; [rewrite !length_skipn; lia|].
  rewrite <- combine_firstn, combine_skipn. apply firstn_skipn.
Qed.

Lemma split_keeps_labels_aligned_witness :
  exists X_train y_train X_test y_test,
    discriminator_train_test_set [1; 2; 3] [4; 5; 6] 0.5%float
    = Ok (X_train, y_train, X_test, y_test)
    /\ length X_train = length y_train
    /\ length X_test = length y_test
    /\ combine X_train y_train ++ combine X_test y_test
       = combine (interleave [1; 2; 3] [4; 5; 6])
                 (alternating_labels (length [1; 2; 3])).
Proof.
  apply (split_keeps_labels_aligned nat [1; 2; 3] [4; 5; 6] [] 0.5%float 3%Z);
    [cbn; lia | repeat constructor | vm_compute; reflexivity].
Defined.

(** X10: for a dataset whose samples have one shape, when the split index
    [z = int(len(X) * fraction)] lies between 1 and the length of the
    dataset, the test part is the last [z] examples and the training part
    the [len(X) - z] examples before them. *)
Theorem split_sizes (sample : Type) `{Np.Shaped sample}
    (shaped real : list sample) (sh : list nat) (f : float) (z : Z) :
  length shaped <= length real ->
  all_shaped sh (shaped ++ real) ->
  Py.int_of_float (Py.mul_int_float (Z.of_nat (2 * length shaped)) f) = Ok z ->
  (0 < z <= Z.of_nat (2 * length shaped))%Z ->
  exists X_train y_train X_test y_test,
    discriminator_train_test_set shaped real f
    = Ok (X_train, y_train, X_test, y_test)
    /\ length X_test = Z.to_nat z
    /\ length X_train = 2 * length shaped - Z.to_nat z
    /\ X_train = firstn (2 * length shaped - Z.to_nat z) (interleave shaped real)
    /\ X_test = skipn (2 * length shaped - Z.to_nat z) (interleave shaped real).
Proof.
  intros Hlen Hsh Hz Hr. do 4 eexists.
  rewrite (split_positive_index sample shaped real sh f z Hlen Hsh Hz Hr).
  split; [reflexivity|].
  assert (HX : length (interleave shaped real) = 2 * length shaped)
    by (rewrite interleave_length; lia).
  split; [rewrite length_skipn; lia|].
  split; [rewrite length_firstn; lia|]. split; reflexivity.
Qed.

Lemma split_sizes_witness :
  exists X_train y_train X_test y_test,
    discriminator_train_test_set [1; 2; 3] [4; 5; 6] 0.5%float
    = Ok (X_train, y_train, X_test, y_test)
    /\ length X_test = Z.to_nat 3
    /\ length X_train = 2 * length [1; 2; 3] - Z.to_nat 3
    /\ X_train = firstn (2 * length [1; 2; 3] - Z.to_nat 3)
                   (interleave [1; 2; 3] [4; 5; 6])
    /\ X_test = skipn (2 * length [1; 2; 3] - Z.to_nat 3)
                  (interleave [1; 2; 3] [4; 5; 6]).
Proof.
  apply (split_sizes nat [1; 2; 3] [4; 5; 6] [] 0.5%float 3%Z);
    [cbn; lia | repeat constructor | vm_compute; reflexivity | cbn; lia].
Defined.

(** X11: with a nan fraction the split fails with ValueError (raised by
    [int]), once the dataset has been assembled. *)
Theorem split_nan_fraction_raises (sample : Type) `{Np.Shaped sample}
    (shaped real : list sample) :
  length shaped <= length real ->
  discriminator_train_test_set shaped real nan = Raise Py.ValueError.
Proof.
  intros Hlen. unfold discriminator_train_test_set.
  rewrite assemble_loop_ok by lia. cbn [Py.bind].
  unfold Py.int_of_float. now rewrite mul_int_nan.
Qed.

Lemma split_nan_fraction_raises_witness :
  discriminator_train_test_set [1; 2; 3] [4; 5; 6] nan = Raise Py.ValueError.
Proof.
  apply (split_nan_fraction_raises nat [1; 2; 3] [4; 5; 6]). cbn. lia.
Defined.

(** X12: without shaped samples the split returns four empty parts for
    every fraction that is a number, whatever [mnist_data] holds, and fails
    with ValueError for an infinite or nan fraction (0 times infinity is
    nan). *)
Theorem split_of_nothing (sample : Type) `{Np.Shaped sample}
    (real : list sample) (f : float) :
  discriminator_train_test_set [] real f
  = if Py.SF_finite (Prim2SF f) then Ok ([], [], [], [])
    else Raise Py.ValueError.
Proof.
  unfold discriminator_train_test_set. cbn [length seq assemble_loop Py.bind].
  unfold Py.int_of_float, Py.mul_int_float. rewrite FloatAxioms.mul_spec.
  change (Prim2SF (Py.float_of_int (Py.len []))) with (S754_zero false).
  destruct (Prim2SF f) as [s|s| |s m e]; reflexivity.
Qed.

(* ================================================================== *)
(** * The scripts' own calls                                           *)
(* ================================================================== *)

Lemma image_width_pos : 1 <= image_width.
Proof. unfold image_width. lia. Qed.

(** Constant rows and images of the same width have one shape. *)
Lemma rows_and_images_shaped (n w : nat) (c : float) (images : list (list float)) :
  Forall (fun img => length img = w) images ->
  all_shaped [w] (repeat (repeat c w) n ++ images).
Proof.
  intros Himg. apply Forall_app. split.
  - apply Forall_forall. intros r Hr. apply repeat_spec in Hr. subst r.
    unfold Np.shape_of, row_shaped. now rewrite repeat_length.
  - apply Forall_forall. intros img Hin. rewrite Forall_forall in Himg.
    unfold Np.shape_of, row_shaped. now rewrite (Himg img Hin).
Qed.

(** The shaped samples the scripts feed the discriminator with. *)
Lemma shaped_against_ok (n : nat) (images : list (list float)) (g : rng) :
  Forall (fun img => length img = image_width) images ->
  n <= length images ->
  shaped_against n images g
  = Ok ((interleave (repeat (repeat 0.999%float image_width) n) images,
         alternating_labels n),
        mk_rng (tape g) (n * image_width + pos g)).
Proof.
  intros Himg Hlen. unfold shaped_against, mbind, lift.
  rewrite shaped_arrays_extent_one by exact image_width_pos.
  rewrite rows_constant.
  rewrite (train_set_ok _ images [image_width]);
    [ now rewrite repeat_length
    | now rewrite repeat_length
    | apply rows_and_images_shaped, Himg ].
Qed.

(** X13: in gan.py, as long as MNIST supplies at least 60000 training and
    10000 test images, every synthetic sample of the discriminator's
    training set and of its evaluation set is the same vector of 784 values
    0.999, whatever the generator draws; the sets alternate it with the
    MNIST images in their order. *)
Theorem gan_sets_alternate_one_constant (X_train X_test : list (list float))
    (g : rng) :
  Forall (fun img => length img = 784) (X_train ++ X_test) ->
  60000 <= length X_train -> 10000 <= length X_test ->
  gan_train_set X_train g
  = Ok ((interleave (repeat (repeat 0.999%float 784) 60000) X_train,
         alternating_labels 60000),
        mk_rng (tape g) (60000 * 784 + pos g))
  /\ gan_test_set X_test g
     = Ok ((interleave (repeat (repeat 0.999%float 784) 10000) X_test,
            alternating_labels 10000),
           mk_rng (tape g) (10000 * 784 + pos g)).
Proof.
  intros Himg H1 H2. apply Forall_app in Himg. destruct Himg as [Ha Hb].
  split; [apply (shaped_against_ok 60000); assumption|].
  apply (shaped_against_ok 10000); assumption.
Qed.

Lemma black_images_width (n m : nat) :
  Forall (fun img => length img = 784) (black_images n ++ black_images m).
Proof.
  apply Forall_app. split; apply Forall_forall; intros img Hin;
    apply repeat_spec in Hin; subst img; apply repeat_length.
Qed.

Lemma gan_sets_alternate_one_constant_witness :
  gan_train_set (black_images 60000) g_falling
  = Ok ((interleave (repeat (repeat 0.999%float 784) 60000) (black_images 60000),
         alternating_labels 60000),
        mk_rng (tape g_falling) (60000 * 784 + pos g_falling))
  /\ gan_test_set (black_images 10000) g_falling
     = Ok ((interleave (repeat (repeat 0.999%float 784) 10000) (black_images 10000),
            alternating_labels 10000),
           mk_rng (tape g_falling) (10000 * 784 + pos g_falling)).
Proof.
  apply (gan_sets_alternate_one_constant (black_images 60000) (black_images 10000)
           g_falling);
    [apply black_images_width | | ];
    unfold black_images; rewrite repeat_length; apply le_n.
Defined.

(** X14: in gan.py, with fewer than 60000 MNIST training images the batch
    of 60000 shaped arrays is still made, drawing 60000 * 784 values, and
    the assembly of the training set then fails with IndexError. *)
Theorem gan_train_set_short_mnist_raises (X_train : list (list float)) (g : rng) :
  length X_train < 60000 ->
  (exists X,
     get_normal_shaped_arrays 60000 [1; 784] g
     = Ok (X, mk_rng (tape g) (60000 * 784 + pos g))
     /\ shape X = [60000; 784])
  /\ gan_train_set X_train g = Raise Py.IndexError.
Proof.
  intros Hlen. split.
  - eexists. split; [apply shaped_arrays_extent_one; lia | reflexivity].
  - unfold gan_train_set, shaped_against, mbind, lift.
    rewrite shaped_arrays_extent_one by exact image_width_pos.
    rewrite rows_constant. unfold get_discriminator_train_set.
    rewrite assemble_loop_short; [reflexivity | | | ]; rewrite ?repeat_length; lia.
Qed.

Lemma gan_train_set_short_mnist_raises_witness :
  (exists X,
     get_normal_shaped_arrays 60000 [1; 784] g_falling
     = Ok (X, mk_rng (tape g_falling) (60000 * 784 + pos g_falling))
     /\ shape X = [60000; 784])
  /\ gan_train_set [] g_falling = Raise Py.IndexError.
Proof.
  apply (gan_train_set_short_mnist_raises [] g_falling).
  apply Nat.ltb_lt. vm_compute. reflexivity.
Defined.

(** X15: in train.py, with at least 60000 MNIST images and a split
    fraction for which [int(120000 * fraction)] is defined, the training
    part followed by the test part is the alternation of one constant
    vector of 784 values 0.999 with the MNIST images. *)
Theorem train_sets_alternate_one_constant (X_train : list (list float))
    (split : float) (z : Z) (g : rng) :
  Forall (fun img => length img = 784) X_train ->
  60000 <= length X_train ->
  Py.int_of_float (Py.mul_int_float (Z.of_nat (2 * 60000)) split) = Ok z ->
  exists X_tr y_tr X_te y_te,
    train_discriminator_sets X_train split g
    = Ok ((X_tr, y_tr, X_te, y_te), mk_rng (tape g) (60000 * 784 + pos g))
    /\ X_tr ++ X_te = interleave (repeat (repeat 0.999%float 784) 60000) X_train
    /\ y_tr ++ y_te = alternating_labels 60000.
Proof.
  intros Himg Hlen Hz. unfold train_discriminator_sets, mbind, lift.
  rewrite shaped_arrays_extent_one by exact image_width_pos.
  rewrite rows_constant.
  rewrite (train_test_set_ok _ X_train [image_width] split z);
    rewrite ?repeat_length;
    [ | exact Hlen | apply rows_and_images_shaped, Himg | exact Hz ].
  do 4 eexists. split; [reflexivity|]. split; apply slice_to_from.
Qed.

Lemma train_sets_alternate_one_constant_witness :
  exists X_tr y_tr X_te y_te,
    train_discriminator_sets (black_images 60000) 0.1%float g_falling
    = Ok ((X_tr, y_tr, X_te, y_te),
          mk_rng (tape g_falling) (60000 * 784 + pos g_falling))
    /\ X_tr ++ X_te
       = interleave (repeat (repeat 0.999%float 784) 60000) (black_images 60000)
    /\ y_tr ++ y_te = alternating_labels 60000.
Proof.
  apply (train_sets_alternate_one_constant (black_images 60000) 0.1%float 12000%Z
           g_falling).
  - apply Forall_forall. intros img Hin. apply repeat_spec in Hin. subst img.
    apply repeat_length.
  - unfold black_images. rewrite repeat_length. apply le_n.
  - vm_compute. reflexivity.
Defined.

Lemma target_loop_appends (n : nat) (y : list label) :
  target_loop n y = y ++ repeat real_label n.
Proof.
  revert y. induction n as [|n IH]; intros y; cbn [target_loop repeat].
  - now rewrite app_nil_r.
  - rewrite IH, <- app_assoc. reflexivity.
Qed.

(** X16: the generator is trained on 100000 identical latent vectors:
    whatever the generator of random numbers draws, every row of the batch
    handed to [gan.train_generator] is 16 times 0.999, and the targets are
    as many labels [0, 1]. *)
Theorem generator_training_set_constant (g : rng) :
  exists X,
    generator_training_input g
    = Ok (X, mk_rng (tape g) (latent_count * latent_width + pos g))
    /\ Np.rows X = repeat (repeat 0.999%float latent_width) latent_count
    /\ generator_training_targets = repeat real_label latent_count
    /\ length (Np.rows X) = length generator_training_targets.
Proof.
  eexists. split.
  { unfold generator_training_input. apply shaped_arrays_extent_one.
    unfold latent_width. lia. }
  split; [apply rows_constant|].
  split; [apply target_loop_appends|].
  rewrite rows_constant. unfold generator_training_targets.
  now rewrite target_loop_appends, !repeat_length.
Qed.

Lemma prediction_input_constant (n i : nat) (c : float) :
  i < n ->
  prediction_input (mk_ndarray [n; latent_width] (repeat c (n * latent_width)))
    (Z.of_nat i)
  = Ok (mk_ndarray [1; latent_width] (repeat c latent_width)).
Proof.
  intros Hi. unfold prediction_input, Np.getitem. cbn [shape data].
  assert (E1 : (Z.of_nat i <? 0)%Z = false) by (apply Z.ltb_ge; lia).
  assert (E2 : (Z.of_nat n <=? Z.of_nat i)%Z = false) by (apply Z.leb_gt; lia).
  cbv zeta. rewrite E1. cbv iota. rewrite E1, E2. cbn [orb Py.bind].
  rewrite Nat2Z.id.
  replace (Np.size_of [latent_width]) with latent_width by reflexivity.
  rewrite firstn_skipn_repeat by nia. reflexivity.
Qed.

(** X17: the three arrays the script predicts digits from, [X[0]], [X[15]]
    and [X[72]] reshaped to (1, 16), are one and the same array of sixteen
    values 0.999, whatever the generator of random numbers draws. *)
Theorem prediction_inputs_identical (g : rng) :
  prediction_inputs g
  = Ok ((mk_ndarray [1; latent_width] (repeat 0.999%float latent_width),
         mk_ndarray [1; latent_width] (repeat 0.999%float latent_width),
         mk_ndarray [1; latent_width] (repeat 0.999%float latent_width)),
        mk_rng (tape g) (latent_count * latent_width + pos g)).
Proof.
  assert (H72 : 72 < latent_count) by (apply Nat.ltb_lt; vm_compute; reflexivity).
  unfold prediction_inputs, mbind, lift, generator_training_input.
  rewrite shaped_arrays_extent_one by (unfold latent_width; lia).
  change 0%Z with (Z.of_nat 0). change 15%Z with (Z.of_nat 15).
  change 72%Z with (Z.of_nat 72).
  rewrite !prediction_input_constant by lia. reflexivity.
Qed.

(** Instances of two facts proved earlier: the endpoints on a sample laid
    out along the first axis, and the sort that changes nothing on a first
    axis of extent 1. *)
Lemma shaper_first_axis_endpoints_witness :
  exists r,
    get_normal_shaped_array_from (mk_ndarray [3] [0.5; -0.5; -1.5]%float) = Ok r
    /\ shape r = [3]
    /\ length (data r) = 3 * Np.size_of []
    /\ (forall k, k < Np.size_of [] -> nth k (data r) 0%float = 1e-4%float)
    /\ (forall k, (3 - 1) * Np.size_of [] <= k < 3 * Np.size_of [] ->
          nth k (data r) 0%float = 0.999%float).
Proof.
  apply (shaper_first_axis_endpoints (mk_ndarray [3] [0.5; -0.5; -1.5]%float) 3 []);
    [reflexivity | reflexivity | lia | cbn; lia].
Defined.

Lemma sort_axis0_extent_one_witness :
  Np.sort_axis0 (mk_ndarray [1; 3] [0.5; -0.5; -1.5]%float)
  = Ok (mk_ndarray [1; 3] [0.5; -0.5; -1.5]%float).
Proof.
  apply (sort_axis0_extent_one (mk_ndarray [1; 3] [0.5; -0.5; -1.5]%float) [3]);
    reflexivity.
Defined.
